(** * vscode-compdb: the compile_commands.json synchroniser of [src/compdb.js]

    A shallow embedding of [CompDBRunner] and [WorkspaceManager] and the
    properties of the reconciliation they perform.

    The JavaScript is asynchronous; every [await] is a suspension point.  The
    embedding runs one call from its start to its settlement (a state and
    exception monad over the world the extension talks to), so the theorems
    speak about one reconciliation, or several run one after the other, and
    not about interleavings of reconciliations that are in flight together. *)

From Stdlib Require Import String Ascii List Bool Arith Lia.
From Stdlib.Strings Require Byte.
From stdpp Require Import base option list strings gmap.
Import ListNotations.

Local Open Scope string_scope.
Local Open Scope list_scope.

(** ** JavaScript values and control *)

(** The values the code passes where a string is expected: a missing argument
    and the result of a function that falls off its end are [undefined]. *)
Inductive jsval : Type :=
  | JUndefined
  | JNull
  | JString (s : string).

(** [ToString] of the ECMAScript specification, on these values. *)
Definition ToString (v : jsval) : string :=
  match v with
  | JUndefined => "undefined"
  | JNull => "null"
  | JString s => s
  end.

(** [a !== b] where [a] is a string: no conversion takes place. *)
Definition strict_neq_string (a : string) (b : jsval) : bool :=
  match b with
  | JString s => negb (String.eqb a s)
  | _ => true
  end.

(** An object whose identity the code observes: [!==] on two objects compares
    the references, never the contents. *)
Record Ref (A : Type) : Type := mkRef { loc : nat; obj : A }.
Arguments mkRef {A} loc obj.
Arguments loc {A} r.
Arguments obj {A} r.

Definition strict_neq_ref {A : Type} (a b : Ref A) : bool :=
  negb (Nat.eqb (loc a) (loc b)).

Inductive exn : Type :=
  | SyntaxError        (* JSON.parse *)
  | TypeError          (* argument validation, Promise.all *)
  | FileSystemError    (* vscode.workspace.fs *)
  | ShellError.        (* PythonShell.run *)

(** How a call settles: an [async] function that returns resolves its promise,
    one that throws rejects it. *)
Inductive outcome (A : Type) : Type :=
  | Returned (a : A)
  | Threw (e : exn).
Arguments Returned {A} a.
Arguments Threw {A} e.

(** State and exception monad; the state a computation has reached when it
    throws is kept. *)
Definition M (S A : Type) : Type := S -> outcome A * S.

Definition ret {S A : Type} (a : A) : M S A := fun s => (Returned a, s).

Definition throw {S A : Type} (e : exn) : M S A := fun s => (Threw e, s).

Definition bind {S A B : Type} (m : M S A) (k : A -> M S B) : M S B :=
  fun s =>
    match m s with
    | (Returned a, s') => k a s'
    | (Threw e, s') => (Threw e, s')
    end.

(** [try { m } catch { h }] *)
Definition try_catch {S A : Type} (m : M S A) (h : exn -> M S A) : M S A :=
  fun s =>
    match m s with
    | (Returned a, s') => (Returned a, s')
    | (Threw e, s') => h e s'
    end.

(** A call to an [async] function whose promise the caller drops.  The model
    runs the call where it is made and forgets how it settled; this is exact
    when the call settles before its first suspension point. *)
Definition detached {S A : Type} (m : M S A) : M S unit :=
  fun s => (Returned tt, snd (m s)).

Declare Scope js_scope.
Delimit Scope js_scope with js.
Notation "x <- m ;; k" := (bind m (fun x => k))
  (at level 100, m at next level, right associativity) : js_scope.
Notation "m ;; k" := (bind m (fun _ => k))
  (at level 100, right associativity) : js_scope.
Local Open Scope js_scope.

(** ** Paths and URIs *)

Definition slash : ascii := "/"%char.

Definition is_slash (c : ascii) : bool := Ascii.eqb c slash.

(** The backwards loop of Node's [path.posix.dirname], over the characters at
    the indices [length - 1] down to [1], last one first.  It returns the
    characters before the separator the loop stops at (still last one first),
    or [None] when [end] stays [-1]. *)
Fixpoint dirname_scan (matchedSlash : bool) (rev_tail : list ascii)
  : option (list ascii) :=
  match rev_tail with
  | [] => None
  | c :: r =>
      if is_slash c
      then if matchedSlash then dirname_scan true r else Some r
      else dirname_scan false r
  end.

(** [path.posix.dirname] of Node. *)
Definition posix_dirname (path : string) : string :=
  match list_ascii_of_string path with
  | [] => "."
  | c0 :: tail =>
      let hasRoot := is_slash c0 in
      match dirname_scan true (rev tail) with
      | None => if hasRoot then "/" else "."
      | Some before =>
          if hasRoot && Nat.eqb (List.length before) 0 then "//"
          else string_of_list_ascii (c0 :: rev before)
      end
  end.

(** [vscode.Uri]: the five components. *)
Record Uri : Type := mkUri {
  uri_scheme : string;
  uri_authority : string;
  uri_path : string;
  uri_query : string;
  uri_fragment : string;
}.

(** [uri.with({ path })] *)
Definition Uri_with_path (uri : Uri) (path : string) : Uri :=
  {| uri_scheme := uri_scheme uri;
     uri_authority := uri_authority uri;
     uri_path := path;
     uri_query := uri_query uri;
     uri_fragment := uri_fragment uri |}.

(** [dirnameUri], lines 10-12. *)
Definition dirnameUri (uri : Uri) : Uri :=
  Uri_with_path uri (posix_dirname (uri_path uri)).

Example posix_dirname_build :
  posix_dirname "/proj/build/compile_commands.json" = "/proj/build".
Proof. reflexivity. Qed.

Example posix_dirname_trailing : posix_dirname "/a//b//" = "/a/".
Proof. reflexivity. Qed.

Example posix_dirname_root : posix_dirname "/compile_commands.json" = "/".
Proof. reflexivity. Qed.

Example posix_dirname_relative : posix_dirname "compile_commands.json" = ".".
Proof. reflexivity. Qed.

(** ** What the extension runs on *)

Abbreviation bytes := (list Init.Byte.byte).

(** The library functions the code calls: [JSON.parse], lodash's [_.isEqual],
    [TextEncoder.prototype.encode] (always UTF-8), the conversion to a string
    that [JSON.parse] applies to the object [readFile] resolves to (the
    extension host hands out a Node [Buffer], which decodes itself as UTF-8),
    [path.posix.join] on strings, [vscode.Uri.file] and the [fsPath] getter
    (which depends on the platform).  [JSON_parse] is [None] where
    [JSON.parse] throws [SyntaxError]. *)
Class Host : Type := {
  json : Type;
  JSON_parse : string -> option json;
  isEqual : json -> json -> bool;
  TextEncoder_encode : string -> bytes;
  readFile_toString : bytes -> string;
  posixPath_join : string -> string -> string;
  Uri_file : string -> Uri;
  Uri_fsPath : Uri -> string;
  (** the text [undefined] is not JSON *)
  JSON_parse_undefined : JSON_parse "undefined" = None;
  (** [_.isEqual] is reflexive on what [JSON.parse] returns *)
  isEqual_refl : forall j : json, isEqual j j = true;
  Uri_file_scheme : forall p : string, uri_scheme (Uri_file p) = "file";
}.

(** [vscode.workspace.fs], as far as the code uses it.  [fs_readFile] is
    [None] and [fs_stat] is [false] where the call rejects, whatever the
    reason (no such file, no permission, a directory, ...).  [writeFile]
    has no handler in the code and none of the properties below is about its
    failure: the model takes the write to go through. *)
Class FileSystem (FS : Type) : Type := {
  fs_readFile : FS -> Uri -> option bytes;
  fs_stat : FS -> Uri -> bool;
  fs_writeFile : FS -> Uri -> bytes -> FS;
}.

(** What a call does to the outside, in the order it does it. *)
Inductive event : Type :=
  | EvBuildDirectory                      (* executeCommand("cmake.buildDirectory") *)
  | EvCompdb (localBuildDir : string)     (* PythonShell.run('compdb', -p dir list) *)
  | EvReadFile (uri : Uri)
  | EvStat (uri : Uri)
  | EvWriteFile (uri : Uri) (content : bytes)
  | EvRestart.                            (* executeCommand("clangd.restart") *)

(** The world: the file system, what the CMake extension answers when it is
    asked for the build directory, what the compdb tool prints for a build
    directory ([None]: [PythonShell.run] rejects, the tool is missing or
    exits with an error), and the log of what has been done so far. *)
Record World (FS : Type) : Type := mkWorld {
  w_fs : FS;
  w_buildDirectory : jsval;
  w_compdb : string -> option (list string);
  w_log : list event;
}.
Arguments mkWorld {FS} w_fs w_buildDirectory w_compdb w_log.
Arguments w_fs {FS} w.
Arguments w_buildDirectory {FS} w.
Arguments w_compdb {FS} w.
Arguments w_log {FS} w.

Definition log_event {FS : Type} (e : event) (w : World FS) : World FS :=
  mkWorld (w_fs w) (w_buildDirectory w) (w_compdb w) (w_log w ++ [e]).

Definition set_fs {FS : Type} (fs : FS) (w : World FS) : World FS :=
  mkWorld fs (w_buildDirectory w) (w_compdb w) (w_log w).

Section Operations.
Context `{Host} {FS : Type} `{FileSystem FS}.

(** [JSON.parse(text)] *)
Definition JSON_parse_js {S : Type} (text : jsval) : M S json :=
  match JSON_parse (ToString text) with
  | Some j => ret j
  | None => throw SyntaxError
  end.

(** [te.encode(text)]; a missing input encodes the empty string. *)
Definition TextEncoder_encode_js (text : jsval) : bytes :=
  match text with
  | JUndefined => TextEncoder_encode ""
  | _ => TextEncoder_encode (ToString text)
  end.

(** [path.posix.join(a, b)]: every argument is validated to be a string. *)
Definition posixPath_join_js {S : Type} (a : jsval) (b : string) : M S string :=
  match a with
  | JString s => ret (posixPath_join s b)
  | _ => throw TypeError
  end.

(** [vscode.Uri.joinPath(base, fragment)] off Windows. *)
Definition Uri_joinPath (base : Uri) (fragment : string) : Uri :=
  Uri_with_path base (posixPath_join (uri_path base) fragment).

(** [vscode.commands.executeCommand("cmake.buildDirectory")] and
    [executeCommand("clangd.restart")]: both commands are taken to be
    registered, so that the calls resolve. *)
Definition executeCommand_cmake_buildDirectory : M (World FS) jsval :=
  fun w => (Returned (w_buildDirectory w), log_event EvBuildDirectory w).

Definition executeCommand_clangd_restart : M (World FS) unit :=
  fun w => (Returned tt, log_event EvRestart w).

Definition PythonShell_run_compdb (localBuildDir : string)
  : M (World FS) (list string) :=
  fun w =>
    match w_compdb w localBuildDir with
    | Some response => (Returned response, log_event (EvCompdb localBuildDir) w)
    | None => (Threw ShellError, log_event (EvCompdb localBuildDir) w)
    end.

Definition readFile (uri : Uri) : M (World FS) bytes :=
  fun w =>
    match fs_readFile (w_fs w) uri with
    | Some content => (Returned content, log_event (EvReadFile uri) w)
    | None => (Threw FileSystemError, log_event (EvReadFile uri) w)
    end.

Definition stat (uri : Uri) : M (World FS) unit :=
  fun w =>
    if fs_stat (w_fs w) uri
    then (Returned tt, log_event (EvStat uri) w)
    else (Threw FileSystemError, log_event (EvStat uri) w).

(** [vscode.workspace.fs.writeFile]: taken to go through.  A write that the
    file system rejects, for which line 106 has no handler, is outside the
    model; so is a [clangd.restart] that is not registered. *)
Definition writeFile (uri : Uri) (content : bytes) : M (World FS) unit :=
  fun w =>
    (Returned tt,
     log_event (EvWriteFile uri content) (set_fs (fs_writeFile (w_fs w) uri content) w)).
End Operations.

(** [vscode.WorkspaceFolder] *)
Record WorkspaceFolder : Type := mkWorkspaceFolder {
  wf_uri : Uri;
  wf_name : string;
  wf_index : nat;
}.

(** The separator of [response.join('\n')]. *)
Definition newline : string := String "010"%char "".

(** ** [class CompDBRunner] *)

Module CompDBRunner.

(** The private fields.  The watcher object of
    [#compileCommandsSourceWatchers] is not part of the state: its events
    are the calls of the three handlers below. *)
Record t : Type := mk {
  workspaceFolder : Ref WorkspaceFolder;
  compileCommandsSourceCandidates : list (Ref Uri);
}.

(** [constructor(workspaceFolder)] *)
Definition new (workspaceFolder : Ref WorkspaceFolder) : t :=
  mk workspaceFolder [].

Section Methods.
Context `{Host} {FS : Type} `{FileSystem FS}.

(** A method that touches only the world. *)
Definition in_world {A : Type} (m : M (World FS) A) : M (t * World FS) A :=
  fun st => let (r, w) := m (snd st) in (r, (fst st, w)).

Definition this : M (t * World FS) t :=
  fun st => (Returned (fst st), st).

Definition set_candidates (l : list (Ref Uri)) : M (t * World FS) unit :=
  fun st => (Returned tt, (mk (workspaceFolder (fst st)) l, snd st)).

(** [#runCompDB], lines 64-80.  Both the [catch] and the [else] branch fall
    off the end of their function: the result is [undefined]. *)
Definition priv_runCompDB (sourceUri : Uri) : M (World FS) jsval :=
  let run (localBuildDir : string) : M (World FS) jsval :=
    try_catch
      (response <- PythonShell_run_compdb localBuildDir ;;
       ret (JString (String.concat newline response)))
      (fun _ => ret JUndefined) in
  if String.eqb (uri_scheme sourceUri) "file"
  then run (Uri_fsPath (dirnameUri sourceUri))
  else ret JUndefined.

Definition targetUri (self : t) : Uri :=
  Uri_joinPath (wf_uri (obj (workspaceFolder self))) "compile_commands.json".

(** [#updateCompDB], lines 82-110.  The [return] inside the [try] block is
    modelled by the boolean the block yields: [true] exactly when the
    function returns there. *)
Definition priv_updateCompDB (self : t) (sourceUri : Uri) : M (World FS) unit :=
  newCompilerCommandsText <- priv_runCompDB sourceUri ;;
  newCompilerCommandsJSON <- JSON_parse_js newCompilerCommandsText ;;
  let targetUri := targetUri self in
  returned <-
    try_catch
      (currentContentBytes <- readFile targetUri ;;
       currentContentJson <- JSON_parse_js (JString (readFile_toString currentContentBytes)) ;;
       ret (isEqual currentContentJson newCompilerCommandsJSON))
      (fun _ => ret false) ;;
  if returned : bool then ret tt
  else
    targetAlreadyExists <-
      try_catch (stat targetUri ;; ret true) (fun _ => ret false) ;;
    writeFile targetUri (TextEncoder_encode_js newCompilerCommandsText) ;;
    if negb targetAlreadyExists
    then executeCommand_clangd_restart
    else ret tt.

(** [runCompDB], lines 28-30. *)
Definition runCompDB (self : t) (buildDir : jsval) : M (World FS) unit :=
  path <- posixPath_join_js buildDir "compile_commands.json" ;;
  priv_updateCompDB self (Uri_file path).

(** [#handleCompileCommandsSourceCreated], lines 32-40. *)
Definition handleCompileCommandsSourceCreated (uri : Ref Uri)
  : M (t * World FS) unit :=
  self <- this ;;
  set_candidates (compileCommandsSourceCandidates self ++ [uri]) ;;
  cmakeBuildDirectory <- in_world executeCommand_cmake_buildDirectory ;;
  if strict_neq_string (Uri_fsPath (dirnameUri (obj uri))) cmakeBuildDirectory
  then ret tt
  else
    self <- this ;;
    in_world (priv_updateCompDB self (obj uri)).

(** [#handleCompileCommandsSourceChanged], lines 42-48. *)
Definition handleCompileCommandsSourceChanged (uri : Ref Uri)
  : M (t * World FS) unit :=
  cmakeBuildDirectory <- in_world executeCommand_cmake_buildDirectory ;;
  if strict_neq_string (Uri_fsPath (dirnameUri (obj uri))) cmakeBuildDirectory
  then ret tt
  else
    self <- this ;;
    in_world (priv_updateCompDB self (obj uri)).

(** [#handleCompileCommandsSourceDeleted], lines 50-52. *)
Definition handleCompileCommandsSourceDeleted (uri : Ref Uri)
  : M (t * World FS) unit :=
  self <- this ;;
  set_candidates
    (List.filter (fun currentUri => strict_neq_ref currentUri uri)
       (compileCommandsSourceCandidates self)).
End Methods.

End CompDBRunner.

(** ** [class WorkspaceManager] *)

Module WorkspaceManager.

Record t : Type := mk { compDBRunners : list CompDBRunner.t }.

(** [array.forEach(callback)]: calls the callback on every element in order
    and returns [undefined]. *)
Fixpoint Array_forEach {S A : Type} (l : list A) (callback : A -> M S unit)
  : M S jsval :=
  match l with
  | [] => ret JUndefined
  | x :: l' => callback x ;; Array_forEach l' callback
  end.

(** [await Promise.all(v)] for the values the code can pass: [undefined]
    and [null] are not iterable, and the promise rejects. *)
Definition Promise_all {S : Type} (v : jsval) : M S unit :=
  match v with
  | JUndefined | JNull => throw TypeError
  | JString _ => ret tt
  end.

Section Methods.
Context `{Host} {FS : Type} `{FileSystem FS}.

(** [constructor()], from [vscode.workspace.workspaceFolders]. *)
Definition new (workspaceFolders : list (Ref WorkspaceFolder)) : t :=
  mk (List.map CompDBRunner.new workspaceFolders).

(** [runCompDB], lines 124-130.  The callback calls [worker.runCompDB()]
    with no argument, and nothing awaits the promise it returns.  The
    [console.log] of line 125 is left out. *)
Definition runCompDB (self : t) (workspaceFolder : Ref WorkspaceFolder)
    (buildDirectory : jsval) : M (World FS) unit :=
  promises <-
    Array_forEach
      (List.filter
         (fun worker =>
            strict_neq_ref (CompDBRunner.workspaceFolder worker) workspaceFolder)
         (compDBRunners self))
      (fun worker => detached (CompDBRunner.runCompDB worker JUndefined)) ;;
  Promise_all promises.

(** [#handleDidChangeWorkspaceFolders], lines 132-139. *)
Definition handleDidChangeWorkspaceFolders
    (removed added : list (Ref WorkspaceFolder)) (self : t) : t :=
  let after_removed :=
    fold_left
      (fun runners removedWorkspaceFolder =>
         List.filter
           (fun worker =>
              strict_neq_ref (CompDBRunner.workspaceFolder worker)
                removedWorkspaceFolder)
           runners)
      removed (compDBRunners self) in
  mk (fold_left
        (fun runners addedWorkspaceFolder =>
           runners ++ [CompDBRunner.new addedWorkspaceFolder])
        added after_removed).
End Methods.

End WorkspaceManager.

(** ** [class CMakeManager] *)

Module CMakeManager.

(** The active project of the CMake Tools API, as far as the code reads it. *)
Record Project : Type := mkProject {
  workspaceFolder : Ref WorkspaceFolder;
  binaryDir : jsval;
}.

Section Methods.
Context `{Host} {FS : Type} `{FileSystem FS}.

(** [#handleReconfigured], lines 156-161. *)
Definition handleReconfigured (workspaceManager : WorkspaceManager.t)
    (activeProject : Project) : M (World FS) unit :=
  WorkspaceManager.runCompDB workspaceManager
    (workspaceFolder activeProject) (binaryDir activeProject).
End Methods.

End CMakeManager.

(** ** Reading the log *)

Definition is_write (e : event) : bool :=
  match e with EvWriteFile _ _ => true | _ => false end.

Definition is_restart (e : event) : bool :=
  match e with EvRestart => true | _ => false end.

Definition is_compdb (e : event) : bool :=
  match e with EvCompdb _ => true | _ => false end.

Definition is_artifact_access (e : event) : bool :=
  match e with EvReadFile _ | EvStat _ | EvWriteFile _ _ => true | _ => false end.

Definition count (p : event -> bool) (l : list event) : nat :=
  List.length (List.filter p l).

(** What a call adds to the log of the world it starts in. *)
Definition events_of {FS A : Type} (m : M (World FS) A) (w : World FS) : list event :=
  skipn (List.length (w_log w)) (w_log (snd (m w))).

(** The same for a handler, whose state is the runner and the world. *)
Definition handler_events_of {FS A : Type} (m : M (CompDBRunner.t * World FS) A)
    (self : CompDBRunner.t) (w : World FS) : list event :=
  skipn (List.length (w_log w)) (w_log (snd (snd (m (self, w))))).

Section Notions.
Context `{Host} {FS : Type} `{FileSystem FS}.

(** The build directory a reconciliation for [sourceUri] hands to the tool. *)
Definition localBuildDir (sourceUri : Uri) : string :=
  Uri_fsPath (dirnameUri sourceUri).

(** Normalization succeeds: the source is a local file, the tool prints
    [response], and the lines joined by newlines are the JSON text of [j]. *)
Definition normalizes (w : World FS) (sourceUri : Uri)
    (response : list string) (j : json) : Prop :=
  uri_scheme sourceUri = "file" /\
  w_compdb w (localBuildDir sourceUri) = Some response /\
  JSON_parse (String.concat newline response) = Some j.

(** Neither the read nor the existence probe finds an artifact. *)
Definition artifact_absent (fs : FS) (target : Uri) : Prop :=
  fs_readFile fs target = None /\ fs_stat fs target = false.

(** The artifact exists and holds [content]. *)
Definition artifact_holds (fs : FS) (target : Uri) (content : bytes) : Prop :=
  fs_readFile fs target = Some content /\ fs_stat fs target = true.

(** The published artifact can be read, parses, and is structurally equal
    to [j]: the condition under which [#updateCompDB] returns at line 92. *)
Definition published_equal (fs : FS) (target : Uri) (j : json) : bool :=
  match fs_readFile fs target with
  | Some content =>
      match JSON_parse (readFile_toString content) with
      | Some current => isEqual current j
      | None => false
      end
  | None => false
  end.

(** The run when the comparison does not stop it: the probe, the write, and
    the restart exactly when the probe fails. *)
Definition published (self : CompDBRunner.t) (sourceUri : Uri) (w : World FS)
    (response : list string) : outcome unit * World FS :=
  let target := CompDBRunner.targetUri self in
  let content := TextEncoder_encode (String.concat newline response) in
  (Returned tt,
   mkWorld (fs_writeFile (w_fs w) target content) (w_buildDirectory w) (w_compdb w)
     (w_log w ++
      [EvCompdb (localBuildDir sourceUri); EvReadFile target; EvStat target;
       EvWriteFile target content] ++
      (if fs_stat (w_fs w) target then [] else [EvRestart]))).
End Notions.

(** ** A concrete host and file system

    Used to run the model on closed inputs.  Its [JSON.parse] understands the
    JSON texts made of one literal or one empty container, with white space
    around the tokens; paths are joined without normalization; text is kept
    as its UTF-8 bytes, so encoding and decoding copy the bytes. *)

Module Sample.

Inductive value : Type := VNull | VTrue | VFalse | VEmptyArray | VEmptyObject.

Inductive token : Type :=
  | TOpenBracket | TCloseBracket | TOpenBrace | TCloseBrace
  | TWord (letters : list ascii).

Definition is_space (c : ascii) : bool :=
  match c with
  | " "%char | "009"%char | "010"%char | "013"%char => true
  | _ => false
  end.

Definition flush (word : list ascii) (rest : list token) : list token :=
  match word with
  | [] => rest
  | _ => TWord (rev word) :: rest
  end.

(** [word] holds the letters of the word being read, last one first. *)
Fixpoint tokens (word : list ascii) (l : list ascii) : list token :=
  match l with
  | [] => flush word []
  | c :: l' =>
      if is_space c then flush word (tokens [] l')
      else if Ascii.eqb c "["%char then flush word (TOpenBracket :: tokens [] l')
      else if Ascii.eqb c "]"%char then flush word (TCloseBracket :: tokens [] l')
      else if Ascii.eqb c "{"%char then flush word (TOpenBrace :: tokens [] l')
      else if Ascii.eqb c "}"%char then flush word (TCloseBrace :: tokens [] l')
      else tokens (c :: word) l'
  end.

Definition parse (text : string) : option value :=
  match tokens [] (list_ascii_of_string text) with
  | [TOpenBracket; TCloseBracket] => Some VEmptyArray
  | [TOpenBrace; TCloseBrace] => Some VEmptyObject
  | [TWord letters] =>
      let word := string_of_list_ascii letters in
      if String.eqb word "null" then Some VNull
      else if String.eqb word "true" then Some VTrue
      else if String.eqb word "false" then Some VFalse
      else None
  | _ => None
  end.

Definition value_eqb (a b : value) : bool :=
  match a, b with
  | VNull, VNull | VTrue, VTrue | VFalse, VFalse
  | VEmptyArray, VEmptyArray | VEmptyObject, VEmptyObject => true
  | _, _ => false
  end.

Definition file_uri (path : string) : Uri := mkUri "file" "" path "" "".

#[export] Instance host : Host := {|
  json := value;
  JSON_parse := parse;
  isEqual := value_eqb;
  TextEncoder_encode := list_byte_of_string;
  readFile_toString := string_of_list_byte;
  posixPath_join := fun a b => a +:+ "/" +:+ b;
  Uri_file := file_uri;
  Uri_fsPath := uri_path;
  JSON_parse_undefined := eq_refl;
  isEqual_refl := fun j => match j with
                           | VNull | VTrue | VFalse | VEmptyArray | VEmptyObject => eq_refl
                           end;
  Uri_file_scheme := fun _ => eq_refl;
|}.

(** A file of the sample file system: what it holds, and whether it may be
    read. *)
Record node : Type := mkNode { content : bytes; readable : bool }.

Definition disk : Type := gmap string node.

Definition disk_readFile (d : disk) (uri : Uri) : option bytes :=
  match d !! uri_path uri with
  | Some n => if readable n then Some (content n) else None
  | None => None
  end.

Definition disk_stat (d : disk) (uri : Uri) : bool :=
  match d !! uri_path uri with
  | Some _ => true
  | None => false
  end.

Definition disk_writeFile (d : disk) (uri : Uri) (new_content : bytes) : disk :=
  let may_read :=
    match d !! uri_path uri with
    | Some n => readable n
    | None => true
    end in
  <[uri_path uri := mkNode new_content may_read]> d.

#[export] Instance fs : FileSystem disk := {|
  fs_readFile := disk_readFile;
  fs_stat := disk_stat;
  fs_writeFile := disk_writeFile;
|}.

(** The workspace of the scenarios: the folder [/proj], built in
    [/proj/build]; the tool prints an empty compilation database. *)
Definition proj : Ref WorkspaceFolder :=
  mkRef 1 (mkWorkspaceFolder (file_uri "/proj") "proj" 0).

Definition other : Ref WorkspaceFolder :=
  mkRef 2 (mkWorkspaceFolder (file_uri "/other") "other" 1).

Definition runner : CompDBRunner.t := CompDBRunner.new proj.

Definition source : Uri := file_uri "/proj/build/compile_commands.json".

Definition artifact : string := "/proj/compile_commands.json".

Definition compdb_tool (localBuildDir : string) : option (list string) :=
  if String.eqb localBuildDir "/proj/build" then Some ["["; "]"] else None.

Definition world (d : disk) : World disk :=
  mkWorld d (JString "/proj/build") compdb_tool [].

Definition file (text : string) : node := mkNode (list_byte_of_string text) true.
End Sample.

(** ** Reconciling again and again *)

Section Repetition.
Context `{Host} {FS : Type} `{FileSystem FS}.

(** The world after [n] calls of [#updateCompDB] for the same source, one
    after the other, however each of them settles. *)
Fixpoint reconcile_times (n : nat) (self : CompDBRunner.t) (sourceUri : Uri)
    (w : World FS) : World FS :=
  match n with
  | O => w
  | S n' =>
      reconcile_times n' self sourceUri
        (snd (CompDBRunner.priv_updateCompDB self sourceUri w))
  end.
End Repetition.

(** ** Paths *)

Lemma list_ascii_of_string_app (a b : string) :
  list_ascii_of_string (a +:+ b) = list_ascii_of_string a ++ list_ascii_of_string b.
Proof. induction a as [|c a IH]; simpl; [reflexivity | rewrite IH; reflexivity]. Qed.

(** Once a character that is no separator has been seen, the loop stops at
    the next separator. *)
Lemma dirname_scan_stops (name before : list ascii) :
  (forall c, In c name -> is_slash c = false) ->
  dirname_scan false (name ++ slash :: before) = Some before.
Proof.
  induction name as [|c name IH]; intros Hname; simpl.
  - reflexivity.
  - rewrite (Hname c (or_introl eq_refl)). apply IH.
    intros c' Hc'. apply Hname. right. exact Hc'.
Qed.

Lemma dirname_scan_name (name before : list ascii) :
  name <> [] ->
  (forall c, In c name -> is_slash c = false) ->
  dirname_scan true (name ++ slash :: before) = Some before.
Proof.
  destruct name as [|c name]; intros Hne Hname; [contradiction|].
  cbn [app dirname_scan]. rewrite (Hname c (or_introl eq_refl)).
  apply dirname_scan_stops. intros c' Hc'. apply Hname. right. exact Hc'.
Qed.

(** The parent directory of [<dir>/<name>] is [<dir>], for a directory that
    does not end in a separator and a name that is not empty and has none. *)
Lemma posix_dirname_of_file (dir name : string) :
  dir <> "" ->
  last (list_ascii_of_string dir) <> Some slash ->
  name <> "" ->
  (forall c, In c (list_ascii_of_string name) -> is_slash c = false) ->
  posix_dirname (dir +:+ "/" +:+ name) = dir.
Proof.
  intros Hdir Hlast Hname Hplain. unfold posix_dirname.
  rewrite !list_ascii_of_string_app.
  destruct (list_ascii_of_string dir) as [|c0 t] eqn:Edir.
  { exfalso. apply Hdir. rewrite <- (string_of_list_ascii_of_string dir), Edir.
    reflexivity. }
  destruct (list_ascii_of_string name) as [|n0 ns] eqn:Ename.
  { exfalso. apply Hname. rewrite <- (string_of_list_ascii_of_string name), Ename.
    reflexivity. }
  cbn [list_ascii_of_string app].
  change (t ++ "/"%char :: n0 :: ns) with (t ++ slash :: n0 :: ns).
  rewrite rev_app_distr. cbn [rev]. rewrite <- !app_assoc. cbn [app].
  replace (rev ns ++ n0 :: slash :: rev t) with ((rev ns ++ [n0]) ++ slash :: rev t)
    by (rewrite <- app_assoc; reflexivity).
  rewrite dirname_scan_name.
  2:{ destruct (rev ns); discriminate. }
  2:{ intros c Hc. apply Hplain. apply in_app_or in Hc as [Hc | [<- | []]].
      - right. apply in_rev. exact Hc.
      - left. reflexivity. }
  rewrite rev_involutive.
  destruct (is_slash c0 && Nat.eqb (List.length (rev t)) 0) eqn:Eroot.
  - exfalso. apply andb_prop in Eroot as [Hslash Hlen].
    apply Nat.eqb_eq in Hlen. rewrite length_rev in Hlen.
    destruct t; [|discriminate Hlen].
    apply Hlast. apply Ascii.eqb_eq in Hslash. rewrite Hslash. reflexivity.
  - rewrite <- Edir. apply string_of_list_ascii_of_string.
Qed.

(** ** The reconciliation of one folder *)

Lemma skipn_length_app {A : Type} (l evs : list A) :
  skipn (List.length l) (l ++ evs) = evs.
Proof. induction l as [|x l IH]; simpl; [reflexivity | exact IH]. Qed.

Lemma events_of_extends {FS A : Type} (m : M (World FS) A) (w : World FS)
    (evs : list event) :
  w_log (snd (m w)) = w_log w ++ evs -> events_of m w = evs.
Proof. intros E. unfold events_of. rewrite E. apply skipn_length_app. Qed.

Lemma strict_neq_string_true (a : string) (b : jsval) :
  strict_neq_string a b = true <-> JString a <> b.
Proof.
  destruct b as [| |s]; simpl; try (split; [discriminate | reflexivity]).
  rewrite negb_true_iff, String.eqb_neq. split; intros N E; apply N; congruence.
Qed.

Section Reconciliation.
Context `{Host} {FS : Type} `{FileSystem FS}.
Implicit Types (self : CompDBRunner.t) (w : World FS) (sourceUri : Uri).

Ltac run_js :=
  unfold bind, try_catch, ret, throw, readFile, stat, writeFile, JSON_parse_js,
    executeCommand_clangd_restart, PythonShell_run_compdb; cbn.

(** [#runCompDB] when the tool prints [response]. *)
Lemma priv_runCompDB_success sourceUri w response :
  uri_scheme sourceUri = "file" ->
  w_compdb w (localBuildDir sourceUri) = Some response ->
  CompDBRunner.priv_runCompDB sourceUri w =
    (Returned (JString (String.concat newline response)),
     log_event (EvCompdb (localBuildDir sourceUri)) w).
Proof.
  intros Hscheme Htool. unfold CompDBRunner.priv_runCompDB.
  rewrite Hscheme. run_js. fold (localBuildDir sourceUri). rewrite Htool.
  reflexivity.
Qed.

(** [#runCompDB] swallows the failure of the tool and yields [undefined]. *)
Lemma priv_runCompDB_failure sourceUri w :
  uri_scheme sourceUri = "file" ->
  w_compdb w (localBuildDir sourceUri) = None ->
  CompDBRunner.priv_runCompDB sourceUri w =
    (Returned JUndefined, log_event (EvCompdb (localBuildDir sourceUri)) w).
Proof.
  intros Hscheme Htool. unfold CompDBRunner.priv_runCompDB.
  rewrite Hscheme. run_js. fold (localBuildDir sourceUri). rewrite Htool.
  reflexivity.
Qed.

(** [#runCompDB] on a source that is not a local file: [undefined], and the
    tool is not run. *)
Lemma priv_runCompDB_remote sourceUri w :
  uri_scheme sourceUri <> "file" ->
  CompDBRunner.priv_runCompDB sourceUri w = (Returned JUndefined, w).
Proof.
  intros Hscheme. unfold CompDBRunner.priv_runCompDB.
  apply String.eqb_neq in Hscheme. rewrite Hscheme. reflexivity.
Qed.

(** The first two lines of [#updateCompDB] when normalization succeeds. *)
Lemma priv_updateCompDB_normalized self sourceUri w response j :
  normalizes w sourceUri response j ->
  CompDBRunner.priv_updateCompDB self sourceUri w =
    (let text := JString (String.concat newline response) in
     let targetUri := CompDBRunner.targetUri self in
     returned <-
       try_catch
         (currentContentBytes <- readFile targetUri ;;
          currentContentJson <-
            JSON_parse_js (JString (readFile_toString currentContentBytes)) ;;
          ret (isEqual currentContentJson j))
         (fun _ => ret false) ;;
     if returned : bool then ret tt
     else
       targetAlreadyExists <-
         try_catch (stat targetUri ;; ret true) (fun _ => ret false) ;;
       writeFile targetUri (TextEncoder_encode_js text) ;;
       if negb targetAlreadyExists
       then executeCommand_clangd_restart
       else ret tt)
      (log_event (EvCompdb (localBuildDir sourceUri)) w).
Proof.
  intros (Hscheme & Htool & Hparse).
  unfold CompDBRunner.priv_updateCompDB at 1. unfold bind at 1.
  rewrite (priv_runCompDB_success _ _ _ Hscheme Htool).
  unfold bind at 1. unfold JSON_parse_js at 1. cbn [ToString].
  rewrite Hparse. reflexivity.
Qed.

Lemma priv_updateCompDB_publishes self sourceUri w response j :
  normalizes w sourceUri response j ->
  published_equal (w_fs w) (CompDBRunner.targetUri self) j = false ->
  CompDBRunner.priv_updateCompDB self sourceUri w = published self sourceUri w response.
Proof.
  intros Hnorm Hneq. rewrite (priv_updateCompDB_normalized _ _ _ _ _ Hnorm).
  unfold published_equal in Hneq. unfold published. run_js.
  destruct (fs_readFile (w_fs w) (CompDBRunner.targetUri self)) as [current|]; cbn.
  - destruct (JSON_parse (readFile_toString current)) as [jc|]; cbn.
    + rewrite Hneq. cbn.
      destruct (fs_stat (w_fs w) (CompDBRunner.targetUri self)); cbn;
        unfold log_event, set_fs; cbn; rewrite <- !app_assoc; reflexivity.
    + destruct (fs_stat (w_fs w) (CompDBRunner.targetUri self)); cbn;
        unfold log_event, set_fs; cbn; rewrite <- !app_assoc; reflexivity.
  - destruct (fs_stat (w_fs w) (CompDBRunner.targetUri self)); cbn;
      unfold log_event, set_fs; cbn; rewrite <- !app_assoc; reflexivity.
Qed.

Lemma priv_updateCompDB_skips self sourceUri w response j :
  normalizes w sourceUri response j ->
  published_equal (w_fs w) (CompDBRunner.targetUri self) j = true ->
  CompDBRunner.priv_updateCompDB self sourceUri w =
    (Returned tt,
     mkWorld (w_fs w) (w_buildDirectory w) (w_compdb w)
       (w_log w ++
        [EvCompdb (localBuildDir sourceUri); EvReadFile (CompDBRunner.targetUri self)])).
Proof.
  intros Hnorm Heq. rewrite (priv_updateCompDB_normalized _ _ _ _ _ Hnorm).
  unfold published_equal in Heq. run_js.
  destruct (fs_readFile (w_fs w) (CompDBRunner.targetUri self)) as [current|];
    [|discriminate]. cbn.
  destruct (JSON_parse (readFile_toString current)) as [jc|]; [|discriminate]. cbn.
  rewrite Heq. unfold log_event; cbn. rewrite <- !app_assoc. reflexivity.
Qed.
End Reconciliation.

Section Aborts.
Context `{Host} {FS : Type} `{FileSystem FS}.
Implicit Types (self : CompDBRunner.t) (w : World FS) (sourceUri : Uri).

(** When the tool fails, [#updateCompDB] hands [undefined] to [JSON.parse],
    which throws: the reconciliation ends there, rejected. *)
Lemma priv_updateCompDB_tool_failure self sourceUri w :
  uri_scheme sourceUri = "file" ->
  w_compdb w (localBuildDir sourceUri) = None ->
  CompDBRunner.priv_updateCompDB self sourceUri w =
    (Threw SyntaxError, log_event (EvCompdb (localBuildDir sourceUri)) w).
Proof.
  intros Hscheme Htool. unfold CompDBRunner.priv_updateCompDB, bind.
  rewrite (priv_runCompDB_failure _ _ Hscheme Htool).
  unfold JSON_parse_js. cbn [ToString]. rewrite JSON_parse_undefined. reflexivity.
Qed.

Lemma priv_updateCompDB_remote self sourceUri w :
  uri_scheme sourceUri <> "file" ->
  CompDBRunner.priv_updateCompDB self sourceUri w = (Threw SyntaxError, w).
Proof.
  intros Hscheme. unfold CompDBRunner.priv_updateCompDB, bind.
  rewrite (priv_runCompDB_remote _ _ Hscheme).
  unfold JSON_parse_js. cbn [ToString]. rewrite JSON_parse_undefined. reflexivity.
Qed.

(** Output of the tool that is not JSON: the exception of [JSON.parse]
    propagates. *)
Lemma priv_updateCompDB_malformed self sourceUri w response :
  uri_scheme sourceUri = "file" ->
  w_compdb w (localBuildDir sourceUri) = Some response ->
  JSON_parse (String.concat newline response) = None ->
  CompDBRunner.priv_updateCompDB self sourceUri w =
    (Threw SyntaxError, log_event (EvCompdb (localBuildDir sourceUri)) w).
Proof.
  intros Hscheme Htool Hparse. unfold CompDBRunner.priv_updateCompDB, bind.
  rewrite (priv_runCompDB_success _ _ _ Hscheme Htool).
  unfold JSON_parse_js. cbn [ToString]. rewrite Hparse. reflexivity.
Qed.

(** However the tool fails, the failed reconciliation has not touched the
    artifact and has not restarted anything. *)
Lemma failed_normalization_is_inert self sourceUri w :
  uri_scheme sourceUri = "file" ->
  w_compdb w (localBuildDir sourceUri) = None ->
  let reconcile := CompDBRunner.priv_updateCompDB self sourceUri in
  fst (reconcile w) = Threw SyntaxError /\
  w_fs (snd (reconcile w)) = w_fs w /\
  count is_artifact_access (events_of reconcile w) = 0 /\
  count is_restart (events_of reconcile w) = 0.
Proof.
  intros Hscheme Htool. cbv zeta.
  pose proof (priv_updateCompDB_tool_failure self _ _ Hscheme Htool) as Hrun.
  rewrite Hrun. repeat split;
    (erewrite events_of_extends; [|rewrite Hrun; reflexivity]); reflexivity.
Qed.

(** A reconciliation never changes what the tool or the CMake extension
    answer. *)
Lemma priv_updateCompDB_compdb self sourceUri w response j :
  normalizes w sourceUri response j ->
  normalizes (snd (CompDBRunner.priv_updateCompDB self sourceUri w)) sourceUri response j.
Proof.
  intros Hnorm.
  destruct (published_equal (w_fs w) (CompDBRunner.targetUri self) j) eqn:E.
  - rewrite (priv_updateCompDB_skips _ _ _ _ _ Hnorm E). exact Hnorm.
  - rewrite (priv_updateCompDB_publishes _ _ _ _ _ Hnorm E). exact Hnorm.
Qed.
End Aborts.

Section Publication.
Context `{Host} {FS : Type} `{FileSystem FS}.
Implicit Types (self : CompDBRunner.t) (w : World FS) (sourceUri : Uri).

(** C1.  First write triggers restart: when normalization succeeds and no
    published artifact exists at the root of the workspace folder, the
    reconciliation writes the encoded text of the tool to the artifact path
    and then issues the restart signal, exactly once. *)
Theorem first_write_triggers_restart self sourceUri w response j :
  normalizes w sourceUri response j ->
  artifact_absent (w_fs w) (CompDBRunner.targetUri self) ->
  let target := CompDBRunner.targetUri self in
  let content := TextEncoder_encode (String.concat newline response) in
  CompDBRunner.priv_updateCompDB self sourceUri w =
    (Returned tt,
     mkWorld (fs_writeFile (w_fs w) target content) (w_buildDirectory w) (w_compdb w)
       (w_log w ++
        [EvCompdb (localBuildDir sourceUri); EvReadFile target; EvStat target;
         EvWriteFile target content; EvRestart])) /\
  count is_write (events_of (CompDBRunner.priv_updateCompDB self sourceUri) w) = 1 /\
  count is_restart (events_of (CompDBRunner.priv_updateCompDB self sourceUri) w) = 1.
Proof.
  intros Hnorm [Hread Hstat]. cbv zeta.
  assert (Hneq : published_equal (w_fs w) (CompDBRunner.targetUri self) j = false)
    by (unfold published_equal; rewrite Hread; reflexivity).
  pose proof (priv_updateCompDB_publishes self _ _ _ _ Hnorm Hneq) as Hrun.
  unfold published in Hrun. rewrite Hstat in Hrun.
  split; [exact Hrun|].
  split; (erewrite events_of_extends; [|rewrite Hrun; reflexivity]); reflexivity.
Qed.

(** C2.  Subsequent write suppresses restart: when normalization succeeds and
    the published artifact exists with content that parses to something
    structurally different, the reconciliation overwrites the artifact with
    the new text and issues no restart signal. *)
Theorem subsequent_write_suppresses_restart self sourceUri w response j current jc :
  normalizes w sourceUri response j ->
  artifact_holds (w_fs w) (CompDBRunner.targetUri self) current ->
  JSON_parse (readFile_toString current) = Some jc ->
  isEqual jc j = false ->
  let target := CompDBRunner.targetUri self in
  let content := TextEncoder_encode (String.concat newline response) in
  CompDBRunner.priv_updateCompDB self sourceUri w =
    (Returned tt,
     mkWorld (fs_writeFile (w_fs w) target content) (w_buildDirectory w) (w_compdb w)
       (w_log w ++
        [EvCompdb (localBuildDir sourceUri); EvReadFile target; EvStat target;
         EvWriteFile target content])) /\
  count is_write (events_of (CompDBRunner.priv_updateCompDB self sourceUri) w) = 1 /\
  count is_restart (events_of (CompDBRunner.priv_updateCompDB self sourceUri) w) = 0.
Proof.
  intros Hnorm [Hread Hstat] Hparse Hdiff. cbv zeta.
  assert (Hneq : published_equal (w_fs w) (CompDBRunner.targetUri self) j = false)
    by (unfold published_equal; rewrite Hread, Hparse; exact Hdiff).
  pose proof (priv_updateCompDB_publishes self _ _ _ _ Hnorm Hneq) as Hrun.
  unfold published in Hrun. rewrite Hstat in Hrun.
  split; [exact Hrun|].
  split; (erewrite events_of_extends; [|rewrite Hrun; reflexivity]); reflexivity.
Qed.

(** C10.  When the published artifact exists but its content is not JSON,
    the exception of [JSON.parse] is caught by the handler that also catches
    a failed read: the artifact is overwritten without comparison, and
    since the existence probe succeeds no restart signal is issued. *)
Theorem unparsable_artifact_is_overwritten self sourceUri w response j current :
  normalizes w sourceUri response j ->
  artifact_holds (w_fs w) (CompDBRunner.targetUri self) current ->
  JSON_parse (readFile_toString current) = None ->
  let target := CompDBRunner.targetUri self in
  let content := TextEncoder_encode (String.concat newline response) in
  CompDBRunner.priv_updateCompDB self sourceUri w =
    (Returned tt,
     mkWorld (fs_writeFile (w_fs w) target content) (w_buildDirectory w) (w_compdb w)
       (w_log w ++
        [EvCompdb (localBuildDir sourceUri); EvReadFile target; EvStat target;
         EvWriteFile target content])) /\
  count is_restart (events_of (CompDBRunner.priv_updateCompDB self sourceUri) w) = 0.
Proof.
  intros Hnorm [Hread Hstat] Hparse. cbv zeta.
  assert (Hneq : published_equal (w_fs w) (CompDBRunner.targetUri self) j = false)
    by (unfold published_equal; rewrite Hread, Hparse; reflexivity).
  pose proof (priv_updateCompDB_publishes self _ _ _ _ Hnorm Hneq) as Hrun.
  unfold published in Hrun. rewrite Hstat in Hrun.
  split; [exact Hrun|].
  erewrite events_of_extends; [|rewrite Hrun; reflexivity]. reflexivity.
Qed.

(** C8, amended.  With normalization succeeding, and the write going through:
    a failed read of the published artifact is caught and taken as no prior
    content, so that the reconciliation goes on to the existence probe and
    overwrites the artifact without comparison; a failed existence probe is
    caught and taken as no artifact, so that the restart signal is issued
    after the write.  The restart follows the probe alone: it is issued only
    when the probe fails, also after a failed read. *)
Theorem artifact_failure_is_caught self sourceUri w response j :
  normalizes w sourceUri response j ->
  let target := CompDBRunner.targetUri self in
  let content := TextEncoder_encode (String.concat newline response) in
  let evs := events_of (CompDBRunner.priv_updateCompDB self sourceUri) w in
  (fs_readFile (w_fs w) target = None ->
   evs =
     [EvCompdb (localBuildDir sourceUri); EvReadFile target; EvStat target;
      EvWriteFile target content] ++
     (if fs_stat (w_fs w) target then [] else [EvRestart])) /\
  (fs_stat (w_fs w) target = false ->
   published_equal (w_fs w) target j = false ->
   evs =
     [EvCompdb (localBuildDir sourceUri); EvReadFile target; EvStat target;
      EvWriteFile target content; EvRestart]) /\
  (In EvRestart evs -> fs_stat (w_fs w) target = false).
Proof.
  intros Hnorm. cbv zeta.
  destruct (published_equal (w_fs w) (CompDBRunner.targetUri self) j) eqn:Heq.
  - pose proof (priv_updateCompDB_skips self _ _ _ _ Hnorm Heq) as Hrun.
    erewrite events_of_extends; [|rewrite Hrun; reflexivity].
    split; [|split].
    + intros Hread. unfold published_equal in Heq. rewrite Hread in Heq.
      discriminate Heq.
    + intros _ Hneq. discriminate Hneq.
    + intros [Hin|[Hin|[]]]; discriminate Hin.
  - pose proof (priv_updateCompDB_publishes self _ _ _ _ Hnorm Heq) as Hrun.
    unfold published in Hrun.
    erewrite events_of_extends; [|rewrite Hrun; reflexivity].
    split; [|split].
    + intros _. reflexivity.
    + intros Hstat _. rewrite Hstat. reflexivity.
    + destruct (fs_stat (w_fs w) (CompDBRunner.targetUri self)); [|reflexivity].
      intros [Hin|[Hin|[Hin|[Hin|[]]]]]; discriminate Hin.
Qed.
End Publication.


Section Verbatim.
Context `{Host} {FS : Type} `{FileSystem FS}.
Implicit Types (self : CompDBRunner.t) (w : World FS) (sourceUri : Uri).

(** C9.  Whenever a reconciliation writes, it writes at
    [<workspace folder>/compile_commands.json], and the bytes are the
    encoding by [TextEncoder] (UTF-8) of the lines the tool printed, joined by
    newlines: the text itself, not a serialization of the parsed content. *)
Theorem written_bytes_are_verbatim self sourceUri w uri content :
  In (EvWriteFile uri content)
     (events_of (CompDBRunner.priv_updateCompDB self sourceUri) w) ->
  uri = Uri_joinPath (wf_uri (obj (CompDBRunner.workspaceFolder self)))
          "compile_commands.json" /\
  exists response : list string,
    w_compdb w (localBuildDir sourceUri) = Some response /\
    content = TextEncoder_encode (String.concat newline response) /\
    w_fs (snd (CompDBRunner.priv_updateCompDB self sourceUri w)) =
      fs_writeFile (w_fs w) uri content.
Proof.
  intros Hin.
  destruct (String.eqb_spec (uri_scheme sourceUri) "file") as [Hscheme|Hscheme].
  2:{ exfalso. revert Hin. unfold events_of.
      rewrite (priv_updateCompDB_remote self _ _ Hscheme). cbn.
      rewrite <- (app_nil_r (w_log w)) at 2. rewrite skipn_length_app. intros []. }
  destruct (w_compdb w (localBuildDir sourceUri)) as [response|] eqn:Htool.
  2:{ exfalso. revert Hin.
      erewrite events_of_extends;
        [|rewrite (priv_updateCompDB_tool_failure self _ _ Hscheme Htool); reflexivity].
      intros [E|[]]; discriminate E. }
  destruct (JSON_parse (String.concat newline response)) as [j|] eqn:Hparse.
  2:{ exfalso. revert Hin.
      erewrite events_of_extends;
        [|rewrite (priv_updateCompDB_malformed self _ _ _ Hscheme Htool Hparse);
          reflexivity].
      intros [E|[]]; discriminate E. }
  assert (Hnorm : normalizes w sourceUri response j) by (repeat split; assumption).
  destruct (published_equal (w_fs w) (CompDBRunner.targetUri self) j) eqn:Heq.
  - exfalso. revert Hin.
    erewrite events_of_extends;
      [|rewrite (priv_updateCompDB_skips self _ _ _ _ Hnorm Heq); reflexivity].
    intros [E|[E|[]]]; discriminate E.
  - revert Hin.
    erewrite events_of_extends;
      [|rewrite (priv_updateCompDB_publishes self _ _ _ _ Hnorm Heq); reflexivity].
    rewrite (priv_updateCompDB_publishes self _ _ _ _ Hnorm Heq).
    intros [E|[E|[E|[E|Hrest]]]]; try discriminate E.
    + injection E as <- <-. split; [reflexivity|].
      exists response. repeat split.
    + exfalso. destruct (fs_stat (w_fs w) (CompDBRunner.targetUri self));
        [destruct Hrest | destruct Hrest as [E|[]]; discriminate E].
Qed.

(** C4, amended.  Two reconciliations in a row, the tool printing the same
    text both times, where the artifact, once written with the new text, is
    read back as that text.  The first run writes exactly once, unless the
    published artifact was structurally equal to the new content already, in
    which case neither run writes.  The second run reads the artifact, finds
    its parsed content structurally equal to the new content, and neither
    writes nor restarts. *)
Theorem second_reconciliation_is_noop self sourceUri w response j :
  normalizes w sourceUri response j ->
  let target := CompDBRunner.targetUri self in
  let text := String.concat newline response in
  fs_readFile (fs_writeFile (w_fs w) target (TextEncoder_encode text)) target =
    Some (TextEncoder_encode text) ->
  readFile_toString (TextEncoder_encode text) = text ->
  let reconcile := CompDBRunner.priv_updateCompDB self sourceUri in
  let w1 := snd (reconcile w) in
  count is_write (events_of reconcile w) =
    (if published_equal (w_fs w) target j then 0 else 1) /\
  published_equal (w_fs w1) target j = true /\
  reconcile w1 =
    (Returned tt,
     mkWorld (w_fs w1) (w_buildDirectory w1) (w_compdb w1)
       (w_log w1 ++ [EvCompdb (localBuildDir sourceUri); EvReadFile target])) /\
  count is_write (events_of reconcile w1) = 0 /\
  count is_restart (events_of reconcile w1) = 0.
Proof.
  intros Hnorm. cbv zeta. intros Hback Hround.
  pose proof (priv_updateCompDB_compdb self _ _ _ _ Hnorm) as Hnorm1.
  assert (Heq1 : published_equal
                   (w_fs (snd (CompDBRunner.priv_updateCompDB self sourceUri w)))
                   (CompDBRunner.targetUri self) j = true).
  { destruct (published_equal (w_fs w) (CompDBRunner.targetUri self) j) eqn:E.
    - rewrite (priv_updateCompDB_skips _ _ _ _ _ Hnorm E). exact E.
    - rewrite (priv_updateCompDB_publishes _ _ _ _ _ Hnorm E).
      unfold published, published_equal. cbn. rewrite Hback, Hround.
      destruct Hnorm as (_ & _ & ->). apply isEqual_refl. }
  pose proof (priv_updateCompDB_skips self _ _ _ _ Hnorm1 Heq1) as Hsecond.
  split; [|split; [exact Heq1|split; [exact Hsecond|]]].
  - destruct (published_equal (w_fs w) (CompDBRunner.targetUri self) j) eqn:E.
    + erewrite events_of_extends;
        [|rewrite (priv_updateCompDB_skips _ _ _ _ _ Hnorm E); reflexivity].
      reflexivity.
    + erewrite events_of_extends;
        [|rewrite (priv_updateCompDB_publishes _ _ _ _ _ Hnorm E); reflexivity].
      destruct (fs_stat (w_fs w) (CompDBRunner.targetUri self)); reflexivity.
  - split; (erewrite events_of_extends; [|rewrite Hsecond; reflexivity]); reflexivity.
Qed.
End Verbatim.

(** ** The watcher handlers *)

Section Handlers.
Context `{Host} {FS : Type} `{FileSystem FS}.
Implicit Types (self : CompDBRunner.t) (w : World FS) (uri : Ref Uri).

(** C5.  Filtering: a create or change event for a path whose parent
    directory is not what the CMake extension reports as the build directory
    when the handler asks (it asks once, at every event) runs the tool zero
    times and writes nothing.  The create handler has appended the path to
    the candidates; the change handler leaves the runner and the file system
    as they were. *)
Theorem filtered_event_is_inert self w uri :
  JString (Uri_fsPath (dirnameUri (obj uri))) <> w_buildDirectory w ->
  CompDBRunner.handleCompileCommandsSourceCreated uri (self, w) =
    (Returned tt,
     (CompDBRunner.mk (CompDBRunner.workspaceFolder self)
        (CompDBRunner.compileCommandsSourceCandidates self ++ [uri]),
      mkWorld (w_fs w) (w_buildDirectory w) (w_compdb w)
        (w_log w ++ [EvBuildDirectory]))) /\
  CompDBRunner.handleCompileCommandsSourceChanged uri (self, w) =
    (Returned tt,
     (self,
      mkWorld (w_fs w) (w_buildDirectory w) (w_compdb w)
        (w_log w ++ [EvBuildDirectory]))) /\
  count is_compdb
    (handler_events_of (CompDBRunner.handleCompileCommandsSourceCreated uri) self w) = 0 /\
  count is_write
    (handler_events_of (CompDBRunner.handleCompileCommandsSourceCreated uri) self w) = 0 /\
  count is_compdb
    (handler_events_of (CompDBRunner.handleCompileCommandsSourceChanged uri) self w) = 0 /\
  count is_write
    (handler_events_of (CompDBRunner.handleCompileCommandsSourceChanged uri) self w) = 0.
Proof.
  intros Hother. apply strict_neq_string_true in Hother.
  assert (Hcreated :
    CompDBRunner.handleCompileCommandsSourceCreated uri (self, w) =
      (Returned tt,
       (CompDBRunner.mk (CompDBRunner.workspaceFolder self)
          (CompDBRunner.compileCommandsSourceCandidates self ++ [uri]),
        mkWorld (w_fs w) (w_buildDirectory w) (w_compdb w)
          (w_log w ++ [EvBuildDirectory])))).
  { unfold CompDBRunner.handleCompileCommandsSourceCreated, bind, CompDBRunner.this,
      CompDBRunner.set_candidates, CompDBRunner.in_world,
      executeCommand_cmake_buildDirectory.
    cbn. rewrite Hother. reflexivity. }
  assert (Hchanged :
    CompDBRunner.handleCompileCommandsSourceChanged uri (self, w) =
      (Returned tt,
       (self,
        mkWorld (w_fs w) (w_buildDirectory w) (w_compdb w)
          (w_log w ++ [EvBuildDirectory])))).
  { unfold CompDBRunner.handleCompileCommandsSourceChanged, bind, CompDBRunner.this,
      CompDBRunner.in_world, executeCommand_cmake_buildDirectory.
    cbn. rewrite Hother. reflexivity. }
  split; [exact Hcreated | split; [exact Hchanged |]].
  unfold handler_events_of. rewrite Hcreated, Hchanged. cbn [snd w_log].
  rewrite skipn_length_app. repeat split.
Qed.

(** A create or change event in the active build directory reconciles from
    the path of the event. *)
Lemma matching_event_reconciles self w uri :
  JString (Uri_fsPath (dirnameUri (obj uri))) = w_buildDirectory w ->
  CompDBRunner.handleCompileCommandsSourceChanged uri (self, w) =
    (let (r, w') :=
       CompDBRunner.priv_updateCompDB self (obj uri) (log_event EvBuildDirectory w) in
     (r, (self, w'))).
Proof.
  intros Hsame.
  unfold CompDBRunner.handleCompileCommandsSourceChanged, bind, CompDBRunner.this,
    CompDBRunner.in_world, executeCommand_cmake_buildDirectory.
  cbn. rewrite <- Hsame. cbn. rewrite String.eqb_refl. reflexivity.
Qed.

(** The delete handler keeps exactly the candidates that are not the very
    object of the event, and touches nothing else: no command, no tool, no
    file access. *)
Lemma handleCompileCommandsSourceDeleted_filters self w uri :
  CompDBRunner.handleCompileCommandsSourceDeleted uri (self, w) =
    (Returned tt,
     (CompDBRunner.mk (CompDBRunner.workspaceFolder self)
        (List.filter (fun currentUri => negb (Nat.eqb (loc currentUri) (loc uri)))
           (CompDBRunner.compileCommandsSourceCandidates self)),
      w)).
Proof. reflexivity. Qed.

(** After the delete handler, the object of the event is no candidate. *)
Lemma deleted_object_is_no_candidate self w uri :
  ~ In uri
      (CompDBRunner.compileCommandsSourceCandidates
         (fst (snd (CompDBRunner.handleCompileCommandsSourceDeleted uri (self, w))))).
Proof.
  rewrite handleCompileCommandsSourceDeleted_filters. cbn.
  intros Hin. apply filter_In in Hin as [_ Hneq].
  rewrite Nat.eqb_refl in Hneq. discriminate Hneq.
Qed.
End Handlers.

(** ** Reconfiguration *)

Section Reconfiguration.
Context `{Host} {FS : Type} `{FileSystem FS}.
Implicit Types (w : World FS).

(** [worker.runCompDB()] without its argument: [path.posix.join] rejects
    [undefined] before anything is awaited, the tool is not run and the
    world is left as it was. *)
Lemma runCompDB_without_argument (worker : CompDBRunner.t) w :
  CompDBRunner.runCompDB worker JUndefined w = (Threw TypeError, w).
Proof. reflexivity. Qed.

Lemma forEach_runCompDB_without_argument (workers : list CompDBRunner.t) w :
  WorkspaceManager.Array_forEach workers
    (fun worker => detached (CompDBRunner.runCompDB worker JUndefined)) w =
  (Returned JUndefined, w).
Proof.
  induction workers as [|worker workers IH]; [reflexivity|].
  cbn [WorkspaceManager.Array_forEach]. unfold bind at 1.
  unfold detached at 1. rewrite runCompDB_without_argument. cbn [snd]. exact IH.
Qed.

(** Whatever the runners, the folder and the build directory:
    [WorkspaceManager.runCompDB] rejects with a [TypeError], and no runner
    has run the tool, read, written or restarted. *)
Lemma WorkspaceManager_runCompDB_rejects (self : WorkspaceManager.t)
    (workspaceFolder : Ref WorkspaceFolder) (buildDirectory : jsval) w :
  WorkspaceManager.runCompDB self workspaceFolder buildDirectory w =
    (Threw TypeError, w).
Proof.
  unfold WorkspaceManager.runCompDB, bind.
  rewrite forEach_runCompDB_without_argument. reflexivity.
Qed.

(** So does the handler of the reconfiguration signal, which passes the
    folder and the binary directory of the active project on. *)
Lemma handleReconfigured_rejects (workspaceManager : WorkspaceManager.t)
    (activeProject : CMakeManager.Project) w :
  CMakeManager.handleReconfigured workspaceManager activeProject w =
    (Threw TypeError, w).
Proof. apply WorkspaceManager_runCompDB_rejects. Qed.

(** The runners [runCompDB] calls are those of all folders but the one it is
    given. *)
Lemma runCompDB_selects (self : WorkspaceManager.t)
    (workspaceFolder : Ref WorkspaceFolder) (worker : CompDBRunner.t) :
  In worker
    (List.filter
       (fun worker =>
          strict_neq_ref (CompDBRunner.workspaceFolder worker) workspaceFolder)
       (WorkspaceManager.compDBRunners self)) <->
  In worker (WorkspaceManager.compDBRunners self) /\
  loc (CompDBRunner.workspaceFolder worker) <> loc workspaceFolder.
Proof.
  rewrite filter_In. unfold strict_neq_ref.
  rewrite negb_true_iff, Nat.eqb_neq. reflexivity.
Qed.

(** When a folder leaves the workspace, its runner is dropped. *)
Lemma removed_folder_has_no_runner (self : WorkspaceManager.t)
    (removed : Ref WorkspaceFolder) (worker : CompDBRunner.t) :
  In worker
    (WorkspaceManager.compDBRunners
       (WorkspaceManager.handleDidChangeWorkspaceFolders [removed] [] self)) ->
  loc (CompDBRunner.workspaceFolder worker) <> loc removed.
Proof.
  cbn. rewrite filter_In. unfold strict_neq_ref.
  rewrite negb_true_iff, Nat.eqb_neq. intros [_ Hne]. exact Hne.
Qed.

(** When folders join, each gets a fresh runner, after the existing ones. *)
Lemma added_folders_get_runners (self : WorkspaceManager.t)
    (added : list (Ref WorkspaceFolder)) :
  WorkspaceManager.compDBRunners
    (WorkspaceManager.handleDidChangeWorkspaceFolders [] added self) =
  WorkspaceManager.compDBRunners self ++ List.map CompDBRunner.new added.
Proof.
  unfold WorkspaceManager.handleDidChangeWorkspaceFolders. cbn [fold_left].
  cbn [WorkspaceManager.compDBRunners].
  generalize (WorkspaceManager.compDBRunners self) as runners.
  induction added as [|folder added IH]; intros runners; cbn [fold_left List.map].
  - rewrite app_nil_r. reflexivity.
  - rewrite IH, <- app_assoc. reflexivity.
Qed.

(** With its argument, [runCompDB] reconciles from
    [<buildDir>/compile_commands.json]. *)
Lemma runCompDB_with_argument (worker : CompDBRunner.t) (buildDir : string) w :
  CompDBRunner.runCompDB worker (JString buildDir) w =
    CompDBRunner.priv_updateCompDB worker
      (Uri_file (posixPath_join buildDir "compile_commands.json")) w.
Proof. reflexivity. Qed.
End Reconfiguration.

(** ** Scenarios on the concrete host *)

Section Scenarios.
Import Sample.

Let target : Uri := file_uri artifact.
Let printed : bytes := list_byte_of_string (String.concat newline ["["; "]"]).

Example sample_target : CompDBRunner.targetUri runner = target.
Proof. reflexivity. Qed.

Example sample_normalizes (d : disk) :
  normalizes (world d) source ["["; "]"] VEmptyArray.
Proof. repeat split. Qed.

(** The scenario of the specification: the watcher reports
    [/proj/build/compile_commands.json] created, [/proj/build] is the active
    build directory and nothing is published yet. *)
Example created_in_build_directory :
  CompDBRunner.handleCompileCommandsSourceCreated (mkRef 10 source) (runner, world ∅) =
    (Returned tt,
     (CompDBRunner.mk proj [mkRef 10 source],
      mkWorld {[artifact := mkNode printed true]} (JString "/proj/build") compdb_tool
        [EvBuildDirectory; EvCompdb "/proj/build"; EvReadFile target; EvStat target;
         EvWriteFile target printed; EvRestart])).
Proof. reflexivity. Qed.

(** The same with an artifact of the same structure in place: the layout of
    the text differs, the parsed content does not; nothing is written. *)
Example created_with_equal_artifact :
  CompDBRunner.handleCompileCommandsSourceCreated (mkRef 10 source)
    (runner, world {[artifact := file "[]"]}) =
    (Returned tt,
     (CompDBRunner.mk proj [mkRef 10 source],
      mkWorld {[artifact := file "[]"]} (JString "/proj/build") compdb_tool
        [EvBuildDirectory; EvCompdb "/proj/build"; EvReadFile target])).
Proof. reflexivity. Qed.

(** A file in another directory: the tool is not run. *)
Example created_elsewhere :
  CompDBRunner.handleCompileCommandsSourceCreated
    (mkRef 10 (file_uri "/proj/other_build/compile_commands.json")) (runner, world ∅) =
    (Returned tt,
     (CompDBRunner.mk proj [mkRef 10 (file_uri "/proj/other_build/compile_commands.json")],
      mkWorld ∅ (JString "/proj/build") compdb_tool [EvBuildDirectory])).
Proof. reflexivity. Qed.

Lemma first_write_triggers_restart_witness :
  normalizes (world ∅) source ["["; "]"] VEmptyArray /\
  artifact_absent (w_fs (world ∅)) (CompDBRunner.targetUri runner) /\
  count is_restart (events_of (CompDBRunner.priv_updateCompDB runner source) (world ∅)) = 1.
Proof.
  split; [repeat split | split; [split; reflexivity |]].
  apply (@first_write_triggers_restart host disk fs runner source (world ∅) ["["; "]"] VEmptyArray);
    [repeat split | split; reflexivity].
Defined.

Lemma subsequent_write_suppresses_restart_witness :
  artifact_holds (w_fs (world {[artifact := file "{}"]})) (CompDBRunner.targetUri runner)
    (list_byte_of_string "{}") /\
  count is_restart
    (events_of (CompDBRunner.priv_updateCompDB runner source)
       (world {[artifact := file "{}"]})) = 0.
Proof.
  split; [split; reflexivity |].
  apply (@subsequent_write_suppresses_restart host disk fs runner source
           (world {[artifact := file "{}"]}) ["["; "]"] VEmptyArray
           (list_byte_of_string "{}") VEmptyObject);
    [repeat split | split; reflexivity | reflexivity | reflexivity].
Defined.

Lemma unparsable_artifact_is_overwritten_witness :
  JSON_parse (readFile_toString (list_byte_of_string "[{")) = None /\
  count is_restart
    (events_of (CompDBRunner.priv_updateCompDB runner source)
       (world {[artifact := file "[{"]})) = 0.
Proof.
  split; [reflexivity |].
  apply (@unparsable_artifact_is_overwritten host disk fs runner source
           (world {[artifact := file "[{"]}) ["["; "]"] VEmptyArray
           (list_byte_of_string "[{"));
    [repeat split | split; reflexivity | reflexivity].
Defined.

(** An artifact that exists but cannot be read: it is overwritten, and the
    probe finds it, so that nothing is restarted. *)
Lemma artifact_failure_is_caught_witness :
  normalizes (world {[artifact := mkNode [] false]}) source ["["; "]"] VEmptyArray /\
  fs_readFile (w_fs (world {[artifact := mkNode [] false]})) target = None /\
  events_of (CompDBRunner.priv_updateCompDB runner source)
    (world {[artifact := mkNode [] false]}) =
    [EvCompdb "/proj/build"; EvReadFile target; EvStat target;
     EvWriteFile target printed].
Proof.
  split; [repeat split | split; [reflexivity |]].
  exact (proj1 (@artifact_failure_is_caught host disk fs runner source
                  (world {[artifact := mkNode [] false]}) ["["; "]"] VEmptyArray
                  (sample_normalizes _)) eq_refl).
Defined.

(** C8 as it is stated fails for a failed read of an artifact that exists:
    the read fails, the artifact is overwritten, and no restart is issued,
    whereas with no artifact the same reconciliation restarts once. *)
Lemma unreadable_artifact_gets_no_restart :
  fs_readFile (w_fs (world {[artifact := mkNode [] false]})) target = None /\
  count is_write
    (events_of (CompDBRunner.priv_updateCompDB runner source)
       (world {[artifact := mkNode [] false]})) = 1 /\
  count is_restart
    (events_of (CompDBRunner.priv_updateCompDB runner source)
       (world {[artifact := mkNode [] false]})) = 0 /\
  count is_restart
    (events_of (CompDBRunner.priv_updateCompDB runner source) (world ∅)) = 1.
Proof. repeat split. Qed.

Lemma written_bytes_are_verbatim_witness :
  In (EvWriteFile target printed)
     (events_of (CompDBRunner.priv_updateCompDB runner source) (world ∅)) /\
  target = Uri_joinPath (wf_uri (obj proj)) "compile_commands.json".
Proof.
  assert (Hin : In (EvWriteFile target printed)
                  (events_of (CompDBRunner.priv_updateCompDB runner source) (world ∅)))
    by (right; right; right; left; reflexivity).
  split; [exact Hin |].
  exact (proj1 (@written_bytes_are_verbatim host disk fs runner source (world ∅) target printed Hin)).
Defined.

Lemma second_reconciliation_is_noop_witness :
  normalizes (world ∅) source ["["; "]"] VEmptyArray /\
  count is_write
    (events_of (CompDBRunner.priv_updateCompDB runner source)
       (snd (CompDBRunner.priv_updateCompDB runner source (world ∅)))) = 0.
Proof.
  split; [repeat split |].
  apply (@second_reconciliation_is_noop host disk fs runner source (world ∅) ["["; "]"] VEmptyArray);
    [repeat split | reflexivity | reflexivity].
Defined.

(** C4 as it is stated fails in two ways.  When the published artifact is
    structurally equal to the output of the tool before the first run,
    neither of the two runs writes.  When the artifact cannot be read back
    (here: a file that may be written but not read), the second run does not
    find it equal and writes again. *)
Lemma two_runs_need_not_write_once :
  normalizes (world {[artifact := file "[]"]}) source ["["; "]"] VEmptyArray /\
  count is_write
    (events_of (CompDBRunner.priv_updateCompDB runner source)
       (world {[artifact := file "[]"]}) ++
     events_of (CompDBRunner.priv_updateCompDB runner source)
       (snd (CompDBRunner.priv_updateCompDB runner source
               (world {[artifact := file "[]"]})))) = 0 /\
  normalizes (world {[artifact := mkNode [] false]}) source ["["; "]"] VEmptyArray /\
  count is_write
    (events_of (CompDBRunner.priv_updateCompDB runner source)
       (snd (CompDBRunner.priv_updateCompDB runner source
               (world {[artifact := mkNode [] false]})))) = 1.
Proof. repeat split. Qed.

Lemma filtered_event_is_inert_witness :
  JString (Uri_fsPath (dirnameUri (file_uri "/proj/other_build/compile_commands.json")))
    <> w_buildDirectory (world ∅) /\
  CompDBRunner.handleCompileCommandsSourceChanged
    (mkRef 10 (file_uri "/proj/other_build/compile_commands.json")) (runner, world ∅) =
    (Returned tt, (runner, mkWorld ∅ (JString "/proj/build") compdb_tool [EvBuildDirectory])).
Proof.
  split; [discriminate |].
  apply (@filtered_event_is_inert host disk fs runner (world ∅)
           (mkRef 10 (file_uri "/proj/other_build/compile_commands.json"))).
  discriminate.
Defined.

(** C6, on a build directory for which the tool fails.  [#runCompDB] swallows
    the failure and yields [undefined]; nothing is read, written or
    restarted; but [#updateCompDB] does not return: [JSON.parse(undefined)]
    throws, and the reconciliation, and the handler that awaits it, end
    rejected with a [SyntaxError]. *)
Theorem failed_normalization_rejects :
  let out := file_uri "/proj/out/compile_commands.json" in
  let w := mkWorld (∅ : disk) (JString "/proj/out") compdb_tool [] in
  w_compdb w (localBuildDir out) = None /\
  CompDBRunner.priv_runCompDB out w =
    (Returned JUndefined,
     mkWorld ∅ (JString "/proj/out") compdb_tool [EvCompdb "/proj/out"]) /\
  CompDBRunner.priv_updateCompDB runner out w =
    (Threw SyntaxError,
     mkWorld ∅ (JString "/proj/out") compdb_tool [EvCompdb "/proj/out"]) /\
  CompDBRunner.handleCompileCommandsSourceChanged (mkRef 10 out) (runner, w) =
    (Threw SyntaxError,
     (runner,
      mkWorld ∅ (JString "/proj/out") compdb_tool [EvBuildDirectory; EvCompdb "/proj/out"])).
Proof. repeat split. Qed.

(** C7, on a delete event that carries its own [Uri] object for the path a
    create event added.  The handler compares references: the two objects
    differ, nothing is filtered out, and the path is still a candidate. *)
Theorem deleted_path_stays_candidate :
  let created := mkRef 10 source in
  let deleted := mkRef 11 source in
  let after_create :=
    snd (CompDBRunner.handleCompileCommandsSourceCreated created (runner, world ∅)) in
  let after_delete :=
    snd (CompDBRunner.handleCompileCommandsSourceDeleted deleted after_create) in
  obj deleted = obj created /\
  CompDBRunner.compileCommandsSourceCandidates (fst after_create) = [created] /\
  CompDBRunner.compileCommandsSourceCandidates (fst after_delete) = [created] /\
  snd after_delete = snd after_create.
Proof. repeat split. Qed.

(** C3, on a workspace with the folders [/proj] and [/other] and a
    reconfiguration that excludes [/other].  The runner of [/proj] is called,
    but without the build directory: the call is rejected before the tool is
    run, and [Promise.all(undefined)] rejects the whole call.  Called with
    the build directory, the runner would have reconciled. *)
Theorem reconfiguration_drops_build_directory :
  let manager := WorkspaceManager.new [proj; other] in
  List.filter
    (fun worker => strict_neq_ref (CompDBRunner.workspaceFolder worker) other)
    (WorkspaceManager.compDBRunners manager) = [runner] /\
  WorkspaceManager.runCompDB manager other (JString "/proj/build") (world ∅) =
    (Threw TypeError, world ∅) /\
  w_log (snd (CompDBRunner.runCompDB runner (JString "/proj/build") (world ∅))) =
    [EvCompdb "/proj/build"; EvReadFile target; EvStat target;
     EvWriteFile target printed; EvRestart].
Proof. repeat split. Qed.
End Scenarios.

(** ** Every reconciliation, case by case *)

Section Cases.
Context `{Host} {FS : Type} `{FileSystem FS}.
Implicit Types (self : CompDBRunner.t) (w : World FS) (sourceUri : Uri).

(** The five ways [#updateCompDB] can go. *)
Lemma priv_updateCompDB_cases self sourceUri w :
  (uri_scheme sourceUri <> "file" /\
   CompDBRunner.priv_updateCompDB self sourceUri w = (Threw SyntaxError, w)) \/
  (uri_scheme sourceUri = "file" /\
   (forall response j, ~ normalizes w sourceUri response j) /\
   CompDBRunner.priv_updateCompDB self sourceUri w =
     (Threw SyntaxError, log_event (EvCompdb (localBuildDir sourceUri)) w)) \/
  (exists response j,
     normalizes w sourceUri response j /\
     published_equal (w_fs w) (CompDBRunner.targetUri self) j = true /\
     CompDBRunner.priv_updateCompDB self sourceUri w =
       (Returned tt,
        mkWorld (w_fs w) (w_buildDirectory w) (w_compdb w)
          (w_log w ++
           [EvCompdb (localBuildDir sourceUri);
            EvReadFile (CompDBRunner.targetUri self)]))) \/
  (exists response j,
     normalizes w sourceUri response j /\
     published_equal (w_fs w) (CompDBRunner.targetUri self) j = false /\
     CompDBRunner.priv_updateCompDB self sourceUri w =
       published self sourceUri w response).
Proof.
  destruct (String.eqb_spec (uri_scheme sourceUri) "file") as [Hscheme|Hscheme].
  2:{ left. split; [exact Hscheme | apply priv_updateCompDB_remote; exact Hscheme]. }
  right.
  destruct (w_compdb w (localBuildDir sourceUri)) as [response|] eqn:Htool.
  2:{ left. split; [exact Hscheme|]. split.
      - intros response j (_ & Hsome & _). congruence.
      - apply priv_updateCompDB_tool_failure; assumption. }
  destruct (JSON_parse (String.concat newline response)) as [j|] eqn:Hparse.
  2:{ left. split; [exact Hscheme|]. split.
      - intros response' j (_ & Hsome & Hjson). congruence.
      - apply (priv_updateCompDB_malformed self _ _ response); assumption. }
  right.
  assert (Hnorm : normalizes w sourceUri response j) by (repeat split; assumption).
  destruct (published_equal (w_fs w) (CompDBRunner.targetUri self) j) eqn:Heq.
  - left. exists response, j. repeat split; try assumption.
    apply (priv_updateCompDB_skips _ _ _ _ _ Hnorm Heq).
  - right. exists response, j. repeat split; try assumption.
    apply (priv_updateCompDB_publishes _ _ _ _ _ Hnorm Heq).
Qed.

(** The events of a reconciliation, in each of the five cases. *)
Lemma priv_updateCompDB_events self sourceUri w :
  let evs := events_of (CompDBRunner.priv_updateCompDB self sourceUri) w in
  let d := localBuildDir sourceUri in
  let t := CompDBRunner.targetUri self in
  evs = [] \/
  evs = [EvCompdb d] \/
  evs = [EvCompdb d; EvReadFile t] \/
  (fs_stat (w_fs w) t = true /\
   exists content, evs = [EvCompdb d; EvReadFile t; EvStat t; EvWriteFile t content]) \/
  (fs_stat (w_fs w) t = false /\
   exists content,
     evs = [EvCompdb d; EvReadFile t; EvStat t; EvWriteFile t content; EvRestart]).
Proof.
  cbv zeta.
  destruct (priv_updateCompDB_cases self sourceUri w)
    as [[_ Hrun] | [(_ & _ & Hrun) | [(response & j & _ & _ & Hrun)
       | (response & j & _ & _ & Hrun)]]].
  - left. apply events_of_extends. rewrite Hrun. cbn. symmetry. apply app_nil_r.
  - right; left. apply events_of_extends. rewrite Hrun. reflexivity.
  - right; right; left. apply events_of_extends. rewrite Hrun. reflexivity.
  - right; right; right. unfold published in Hrun.
    destruct (fs_stat (w_fs w) (CompDBRunner.targetUri self)) eqn:Hstat.
    + left. split; [reflexivity|]. eexists. apply events_of_extends.
      rewrite Hrun. reflexivity.
    + right. split; [reflexivity|]. eexists. apply events_of_extends.
      rewrite Hrun. reflexivity.
Qed.
End Cases.

(** ** What a reconciliation does and never does *)

Section Effects.
Context `{Host} {FS : Type} `{FileSystem FS}.
Implicit Types (self : CompDBRunner.t) (w : World FS) (sourceUri : Uri).

(** X1.  [#runCompDB] never rejects.  It resolves to the lines of the tool
    joined by newlines when the source is a [file] URI and the tool succeeds,
    and to [undefined] otherwise; for a source that is no [file] URI it does
    not even run the tool; it never touches the file system. *)
Theorem priv_runCompDB_never_rejects sourceUri w :
  (exists v,
     fst (CompDBRunner.priv_runCompDB sourceUri w) = Returned v /\
     (v = JUndefined /\
        (uri_scheme sourceUri <> "file" \/
         w_compdb w (localBuildDir sourceUri) = None) \/
      exists response,
        uri_scheme sourceUri = "file" /\
        w_compdb w (localBuildDir sourceUri) = Some response /\
        v = JString (String.concat newline response))) /\
  (uri_scheme sourceUri <> "file" -> snd (CompDBRunner.priv_runCompDB sourceUri w) = w) /\
  w_fs (snd (CompDBRunner.priv_runCompDB sourceUri w)) = w_fs w.
Proof.
  destruct (String.eqb_spec (uri_scheme sourceUri) "file") as [Hscheme|Hscheme].
  - destruct (w_compdb w (localBuildDir sourceUri)) as [response|] eqn:Htool.
    + rewrite (priv_runCompDB_success _ _ _ Hscheme Htool). repeat split.
      * eexists. split; [reflexivity|]. right. exists response. repeat split; assumption.
      * intros Hne. contradiction.
    + rewrite (priv_runCompDB_failure _ _ Hscheme Htool). repeat split.
      * eexists. split; [reflexivity|]. left. split; [reflexivity|]. right. reflexivity.
      * intros Hne. contradiction.
  - rewrite (priv_runCompDB_remote _ _ Hscheme). repeat split.
    eexists. split; [reflexivity|]. left. split; [reflexivity|]. left. exact Hscheme.
Qed.

(** X2.  A source that is no [file] URI (a remote or virtual file system):
    the reconciliation rejects with the [SyntaxError] of
    [JSON.parse(undefined)] and has done nothing at all, not even run the
    tool. *)
Theorem remote_source_rejects_untouched self sourceUri w :
  uri_scheme sourceUri <> "file" ->
  CompDBRunner.priv_updateCompDB self sourceUri w = (Threw SyntaxError, w) /\
  events_of (CompDBRunner.priv_updateCompDB self sourceUri) w = [].
Proof.
  intros Hscheme. pose proof (priv_updateCompDB_remote self _ w Hscheme) as Hrun.
  split; [exact Hrun|].
  apply events_of_extends. rewrite Hrun. cbn. symmetry. apply app_nil_r.
Qed.

(** X3.  Content-equal skip: when the published artifact can be read and
    parses to content structurally equal to the new content, whatever its
    bytes, the reconciliation returns after the read: the file system is as
    it was, there is no existence probe, no write and no restart. *)
Theorem equal_artifact_is_left_alone self sourceUri w response j current jc :
  normalizes w sourceUri response j ->
  fs_readFile (w_fs w) (CompDBRunner.targetUri self) = Some current ->
  JSON_parse (readFile_toString current) = Some jc ->
  isEqual jc j = true ->
  CompDBRunner.priv_updateCompDB self sourceUri w =
    (Returned tt,
     mkWorld (w_fs w) (w_buildDirectory w) (w_compdb w)
       (w_log w ++
        [EvCompdb (localBuildDir sourceUri); EvReadFile (CompDBRunner.targetUri self)])) /\
  count is_write (events_of (CompDBRunner.priv_updateCompDB self sourceUri) w) = 0 /\
  count is_restart (events_of (CompDBRunner.priv_updateCompDB self sourceUri) w) = 0.
Proof.
  intros Hnorm Hread Hparse Hequal.
  assert (Heq : published_equal (w_fs w) (CompDBRunner.targetUri self) j = true)
    by (unfold published_equal; rewrite Hread, Hparse; exact Hequal).
  pose proof (priv_updateCompDB_skips self _ _ _ _ Hnorm Heq) as Hrun.
  split; [exact Hrun|].
  split; (erewrite events_of_extends; [|rewrite Hrun; reflexivity]); reflexivity.
Qed.

(** X4.  Bounds on every reconciliation, in every world: the tool is run at
    most once and only on the directory of the source; the artifact is
    accessed at most three times, written at most once, and no other file is
    ever read, probed or written; there is no restart without a write; and
    the build directory is never asked for. *)
Theorem reconciliation_effect_bounds self sourceUri w :
  let evs := events_of (CompDBRunner.priv_updateCompDB self sourceUri) w in
  count is_compdb evs <= 1 /\
  count is_artifact_access evs <= 3 /\
  count is_write evs <= 1 /\
  count is_restart evs <= count is_write evs /\
  ~ In EvBuildDirectory evs /\
  (forall dir, In (EvCompdb dir) evs -> dir = localBuildDir sourceUri) /\
  (forall uri,
     In (EvReadFile uri) evs \/ In (EvStat uri) evs \/
     (exists content, In (EvWriteFile uri content) evs) ->
     uri = CompDBRunner.targetUri self).
Proof.
  cbv zeta.
  destruct (priv_updateCompDB_events self sourceUri w)
    as [E | [E | [E | [(_ & content & E) | (_ & content & E)]]]];
    rewrite E; unfold count; cbn; repeat split; try lia; unfold not; intros;
    repeat match goal with
           | Hin : _ \/ _ |- _ => destruct Hin
           | Hin : exists _, _ |- _ => destruct Hin
           | Hin : False |- _ => destruct Hin
           end;
    congruence.
Qed.

(** X5.  The restart signal is issued exactly when the reconciliation writes
    and the existence probe before the write has failed; it then is the last
    thing the reconciliation does, right after the write. *)
Theorem restart_exactly_after_first_write self sourceUri w :
  let evs := events_of (CompDBRunner.priv_updateCompDB self sourceUri) w in
  let t := CompDBRunner.targetUri self in
  (In EvRestart evs <-> count is_write evs = 1 /\ fs_stat (w_fs w) t = false) /\
  (In EvRestart evs ->
   exists before content, evs = before ++ [EvWriteFile t content; EvRestart]).
Proof.
  cbv zeta.
  destruct (priv_updateCompDB_events self sourceUri w)
    as [E | [E | [E | [(Hstat & content & E) | (Hstat & content & E)]]]];
    rewrite E; unfold count; cbn.
  - split; [split|]; [intros [] | intros [Hone _]; discriminate Hone | intros []].
  - split; [split|].
    + intros [Hin|[]]; discriminate Hin.
    + intros [Hone _]; discriminate Hone.
    + intros [Hin|[]]; discriminate Hin.
  - split; [split|].
    + intros [Hin|[Hin|[]]]; discriminate Hin.
    + intros [Hone _]; discriminate Hone.
    + intros [Hin|[Hin|[]]]; discriminate Hin.
  - split; [split|].
    + intros [Hin|[Hin|[Hin|[Hin|[]]]]]; discriminate Hin.
    + intros [_ Hno]. congruence.
    + intros [Hin|[Hin|[Hin|[Hin|[]]]]]; discriminate Hin.
  - split; [split|].
    + intros _. split; [reflexivity | exact Hstat].
    + intros _. do 4 right. left. reflexivity.
    + intros _.
      exists [EvCompdb (localBuildDir sourceUri);
              EvReadFile (CompDBRunner.targetUri self);
              EvStat (CompDBRunner.targetUri self)], content.
      reflexivity.
Qed.

(** X6.  When normalization does not succeed (a source that is no local
    file, a failing tool, output that is not JSON), the reconciliation rejects
    with [SyntaxError] before the artifact is read: the file system is
    unchanged, the artifact is neither read, probed nor written, and nothing
    is restarted.  The artifact is read exactly when normalization succeeds,
    and only then can the reconciliation return. *)
Theorem unnormalized_source_leaves_artifact_unread self sourceUri w :
  let reconcile := CompDBRunner.priv_updateCompDB self sourceUri in
  let evs := events_of reconcile w in
  ((forall response j, ~ normalizes w sourceUri response j) ->
   fst (reconcile w) = Threw SyntaxError /\
   w_fs (snd (reconcile w)) = w_fs w /\
   count is_artifact_access evs = 0 /\
   count is_restart evs = 0) /\
  (In (EvReadFile (CompDBRunner.targetUri self)) evs <->
   exists response j, normalizes w sourceUri response j) /\
  (fst (reconcile w) = Returned tt ->
   exists response j, normalizes w sourceUri response j).
Proof.
  cbv zeta.
  destruct (priv_updateCompDB_cases self sourceUri w)
    as [[Hscheme Hrun] | [(_ & Hnone & Hrun) | [(response & j & Hnorm & _ & Hrun)
       | (response & j & Hnorm & _ & Hrun)]]].
  - assert (Hevs : events_of (CompDBRunner.priv_updateCompDB self sourceUri) w = [])
      by (apply events_of_extends; rewrite Hrun; cbn; symmetry; apply app_nil_r).
    rewrite Hevs, Hrun. split; [|split].
    + intros _. repeat split.
    + split; [intros [] | intros (response & j & Hfile & _); contradiction].
    + discriminate.
  - assert (Hevs : events_of (CompDBRunner.priv_updateCompDB self sourceUri) w =
                     [EvCompdb (localBuildDir sourceUri)])
      by (apply events_of_extends; rewrite Hrun; reflexivity).
    rewrite Hevs, Hrun. split; [|split].
    + intros _. repeat split.
    + split; [intros [Hin|[]]; discriminate Hin
             | intros (response & j & Hnorm); exfalso; exact (Hnone _ _ Hnorm)].
    + discriminate.
  - assert (Hevs : events_of (CompDBRunner.priv_updateCompDB self sourceUri) w =
                     [EvCompdb (localBuildDir sourceUri);
                      EvReadFile (CompDBRunner.targetUri self)])
      by (apply events_of_extends; rewrite Hrun; reflexivity).
    rewrite Hevs. split; [|split].
    + intros Hnone. exfalso. exact (Hnone _ _ Hnorm).
    + split; [intros _; exists response, j; exact Hnorm
             | intros _; right; left; reflexivity].
    + intros _. exists response, j. exact Hnorm.
  - split; [|split].
    + intros Hnone. exfalso. exact (Hnone _ _ Hnorm).
    + split; [intros _; exists response, j; exact Hnorm|].
      intros _. erewrite events_of_extends; [|rewrite Hrun; reflexivity].
      right; left; reflexivity.
    + intros _. exists response, j. exact Hnorm.
Qed.
End Effects.

(** ** More than two reconciliations *)

Lemma count_app (p : event -> bool) (l1 l2 : list event) :
  count p (l1 ++ l2) = count p l1 + count p l2.
Proof. unfold count. rewrite List.filter_app, List.length_app. reflexivity. Qed.

Lemma count_concat_repeat (p : event -> bool) (evs : list event) (n : nat) :
  count p evs = 0 -> count p (concat (repeat evs n)) = 0.
Proof.
  intros Hzero. induction n as [|n IH]; [reflexivity|].
  cbn [repeat concat]. rewrite count_app, Hzero, IH. reflexivity.
Qed.

Section Repeated.
Context `{Host} {FS : Type} `{FileSystem FS}.
Implicit Types (self : CompDBRunner.t) (w : World FS) (sourceUri : Uri).

(** Once the published artifact is structurally equal to what the tool
    prints, every further reconciliation runs the tool, reads, and stops. *)
Lemma reconcile_times_stable self sourceUri response j (n : nat) : forall w,
  normalizes w sourceUri response j ->
  published_equal (w_fs w) (CompDBRunner.targetUri self) j = true ->
  reconcile_times n self sourceUri w =
    mkWorld (w_fs w) (w_buildDirectory w) (w_compdb w)
      (w_log w ++
       concat (repeat [EvCompdb (localBuildDir sourceUri);
                       EvReadFile (CompDBRunner.targetUri self)] n)).
Proof.
  induction n as [|n IH]; intros w Hnorm Heq.
  - destruct w. cbn. rewrite app_nil_r. reflexivity.
  - cbn [reconcile_times]. rewrite (priv_updateCompDB_skips _ _ _ _ _ Hnorm Heq).
    cbn [snd]. rewrite IH; [|exact Hnorm | exact Heq].
    cbn [w_fs w_buildDirectory w_compdb w_log repeat concat].
    rewrite <- app_assoc. reflexivity.
Qed.

(** X7.  Any number of reconciliations for the same source, one after the
    other, with the tool printing the same text and the written artifact
    being read back as that text: after the first, each further one only
    runs the tool and reads the artifact, so that all of them together write
    at most once and restart at most once. *)
Theorem repeated_reconciliation_writes_once self sourceUri w response j (n : nat) :
  normalizes w sourceUri response j ->
  let target := CompDBRunner.targetUri self in
  let text := String.concat newline response in
  fs_readFile (fs_writeFile (w_fs w) target (TextEncoder_encode text)) target =
    Some (TextEncoder_encode text) ->
  readFile_toString (TextEncoder_encode text) = text ->
  let w1 := snd (CompDBRunner.priv_updateCompDB self sourceUri w) in
  let all := skipn (List.length (w_log w))
               (w_log (reconcile_times (S n) self sourceUri w)) in
  reconcile_times (S n) self sourceUri w =
    mkWorld (w_fs w1) (w_buildDirectory w1) (w_compdb w1)
      (w_log w1 ++
       concat (repeat [EvCompdb (localBuildDir sourceUri); EvReadFile target] n)) /\
  count is_write all <= 1 /\
  count is_restart all <= 1.
Proof.
  intros Hnorm. cbv zeta. intros Hback Hround.
  pose proof (priv_updateCompDB_compdb self _ _ _ _ Hnorm) as Hnorm1.
  assert (Heq1 : published_equal
                   (w_fs (snd (CompDBRunner.priv_updateCompDB self sourceUri w)))
                   (CompDBRunner.targetUri self) j = true).
  { destruct (published_equal (w_fs w) (CompDBRunner.targetUri self) j) eqn:E.
    - rewrite (priv_updateCompDB_skips _ _ _ _ _ Hnorm E). exact E.
    - rewrite (priv_updateCompDB_publishes _ _ _ _ _ Hnorm E).
      unfold published, published_equal. cbn. rewrite Hback, Hround.
      destruct Hnorm as (_ & _ & ->). apply isEqual_refl. }
  cbn [reconcile_times].
  rewrite (reconcile_times_stable self sourceUri response j n _ Hnorm1 Heq1).
  split; [reflexivity|]. cbn [w_log].
  destruct (priv_updateCompDB_events self sourceUri w)
    as [E | [E | [E | [(_ & content & E) | (_ & content & E)]]]];
    unfold events_of in E;
    rewrite <- (firstn_skipn (List.length (w_log w))
                  (w_log (snd (CompDBRunner.priv_updateCompDB self sourceUri w))));
    rewrite E.
  all: assert (Hfirst :
         firstn (List.length (w_log w))
           (w_log (snd (CompDBRunner.priv_updateCompDB self sourceUri w))) = w_log w)
       by (destruct (priv_updateCompDB_cases self sourceUri w)
             as [[_ Hrun] | [(_ & _ & Hrun) | [(r' & j' & _ & _ & Hrun)
                | (r' & j' & _ & _ & Hrun)]]];
           rewrite Hrun; unfold published; cbn [snd w_log log_event];
           [apply firstn_all | | |];
           rewrite firstn_app, firstn_all, Nat.sub_diag; cbn; apply app_nil_r).
  all: rewrite Hfirst, <- !app_assoc, skipn_length_app, !count_app.
  all: rewrite !count_concat_repeat by reflexivity.
  all: unfold count; cbn; lia.
Qed.
End Repeated.

(** ** More on the watcher handlers *)

Lemma filter_twice {A : Type} (f : A -> bool) (l : list A) :
  List.filter f (List.filter f l) = List.filter f l.
Proof.
  induction l as [|x l IH]; [reflexivity|]. cbn.
  destruct (f x) eqn:E; cbn; [rewrite E, IH; reflexivity | exact IH].
Qed.

Lemma filter_keeps_all {A : Type} (f : A -> bool) (l : list A) :
  (forall x, In x l -> f x = true) -> List.filter f l = l.
Proof.
  induction l as [|x l IH]; intros Hall; [reflexivity|]. cbn.
  rewrite (Hall x (or_introl eq_refl)), IH; [reflexivity|].
  intros y Hy. apply Hall. right. exact Hy.
Qed.

Section Watcher.
Context `{Host} {FS : Type} `{FileSystem FS}.
Implicit Types (self : CompDBRunner.t) (w : World FS) (uri : Ref Uri).

(** The log after a reconciliation is the log before, followed by its
    events. *)
Lemma priv_updateCompDB_log self (sourceUri : Uri) w :
  w_log (snd (CompDBRunner.priv_updateCompDB self sourceUri w)) =
    w_log w ++ events_of (CompDBRunner.priv_updateCompDB self sourceUri) w.
Proof.
  destruct (priv_updateCompDB_cases self sourceUri w)
    as [[_ Hrun] | [(_ & _ & Hrun) | [(r & j & _ & _ & Hrun)
       | (r & j & _ & _ & Hrun)]]].
  - erewrite events_of_extends; [|rewrite Hrun; cbn; symmetry; apply app_nil_r].
    rewrite Hrun. cbn. symmetry. apply app_nil_r.
  - erewrite events_of_extends; [|rewrite Hrun; reflexivity]. rewrite Hrun. reflexivity.
  - erewrite events_of_extends; [|rewrite Hrun; reflexivity]. rewrite Hrun. reflexivity.
  - erewrite events_of_extends; [|rewrite Hrun; reflexivity]. rewrite Hrun. reflexivity.
Qed.

(** The runner after the create handler, however the handler settles. *)
Lemma handleCompileCommandsSourceCreated_runner self w uri :
  fst (snd (CompDBRunner.handleCompileCommandsSourceCreated uri (self, w))) =
    CompDBRunner.mk (CompDBRunner.workspaceFolder self)
      (CompDBRunner.compileCommandsSourceCandidates self ++ [uri]).
Proof.
  unfold CompDBRunner.handleCompileCommandsSourceCreated, bind, CompDBRunner.this,
    CompDBRunner.set_candidates, CompDBRunner.in_world,
    executeCommand_cmake_buildDirectory.
  cbn.
  destruct (strict_neq_string (Uri_fsPath (dirnameUri (obj uri))) (w_buildDirectory w));
    [reflexivity|].
  cbn. destruct (CompDBRunner.priv_updateCompDB _ _ _) as [r w']. reflexivity.
Qed.

(** What a create or change event adds to the log: the query, then the
    events of the reconciliation if the directories are the same. *)
Lemma handler_events self w uri (pushed : bool) :
  handler_events_of
    (if pushed then CompDBRunner.handleCompileCommandsSourceCreated uri
     else CompDBRunner.handleCompileCommandsSourceChanged uri) self w =
  EvBuildDirectory ::
    (if strict_neq_string (Uri_fsPath (dirnameUri (obj uri))) (w_buildDirectory w)
     then []
     else events_of (CompDBRunner.priv_updateCompDB self (obj uri))
            (log_event EvBuildDirectory w)).
Proof.
  pose proof (priv_updateCompDB_log self (obj uri) (log_event EvBuildDirectory w)) as Hlog.
  remember (events_of (CompDBRunner.priv_updateCompDB self (obj uri))
              (log_event EvBuildDirectory w)) as evs eqn:Hevs.
  clear Hevs. unfold handler_events_of.
  destruct pushed;
    unfold CompDBRunner.handleCompileCommandsSourceCreated,
      CompDBRunner.handleCompileCommandsSourceChanged, bind, CompDBRunner.this,
      CompDBRunner.set_candidates, CompDBRunner.in_world,
      executeCommand_cmake_buildDirectory; cbn;
    (destruct (strict_neq_string (Uri_fsPath (dirnameUri (obj uri)))
                 (w_buildDirectory w));
     [cbn; apply skipn_length_app|]); cbn.
  - change (CompDBRunner.priv_updateCompDB
              (CompDBRunner.mk (CompDBRunner.workspaceFolder self)
                 (CompDBRunner.compileCommandsSourceCandidates self ++ [uri])))
      with (CompDBRunner.priv_updateCompDB self).
    destruct (CompDBRunner.priv_updateCompDB self (obj uri) (log_event EvBuildDirectory w))
      as [r w'].
    cbn in Hlog |- *. rewrite Hlog, <- app_assoc. apply skipn_length_app.
  - destruct (CompDBRunner.priv_updateCompDB self (obj uri) (log_event EvBuildDirectory w))
      as [r w'].
    cbn in Hlog |- *. rewrite Hlog, <- app_assoc. apply skipn_length_app.
Qed.
End Watcher.

Lemma strict_neq_string_false (a : string) (b : jsval) :
  strict_neq_string a b = false -> JString a = b.
Proof.
  destruct b as [| |s]; simpl; try discriminate.
  rewrite negb_false_iff, String.eqb_eq. intros ->. reflexivity.
Qed.

Section WatcherProperties.
Context `{Host} {FS : Type} `{FileSystem FS}.
Implicit Types (self : CompDBRunner.t) (w : World FS) (uri : Ref Uri).

(** X8.  The create handler leaves the runner with the URI of the event
    appended to its candidates however the handler settles, also when the
    reconciliation it starts rejects; the change handler never changes the
    runner.  Neither changes the workspace folder of the runner. *)
Theorem create_records_whatever_happens self w uri :
  fst (snd (CompDBRunner.handleCompileCommandsSourceCreated uri (self, w))) =
    CompDBRunner.mk (CompDBRunner.workspaceFolder self)
      (CompDBRunner.compileCommandsSourceCandidates self ++ [uri]) /\
  fst (snd (CompDBRunner.handleCompileCommandsSourceChanged uri (self, w))) = self.
Proof.
  split; [apply handleCompileCommandsSourceCreated_runner|].
  unfold CompDBRunner.handleCompileCommandsSourceChanged, bind, CompDBRunner.this,
    CompDBRunner.in_world, executeCommand_cmake_buildDirectory.
  cbn.
  destruct (strict_neq_string (Uri_fsPath (dirnameUri (obj uri))) (w_buildDirectory w));
    [reflexivity|].
  cbn. destruct (CompDBRunner.priv_updateCompDB _ _ _) as [r w']. reflexivity.
Qed.

(** X9.  A create or change event asks for the build directory once, before
    anything else.  Whatever follows (tool, read, probe, write, restart)
    happens only if the parent directory of the path is that build
    directory, and the tool is only ever run on that build directory. *)
Theorem watcher_runs_tool_on_active_directory self w uri :
  let guarded := fun handler : M (CompDBRunner.t * World FS) unit =>
    exists rest,
      handler_events_of handler self w = EvBuildDirectory :: rest /\
      ~ In EvBuildDirectory rest /\
      (forall e, In e rest ->
         JString (Uri_fsPath (dirnameUri (obj uri))) = w_buildDirectory w) /\
      (forall dir, In (EvCompdb dir) rest -> JString dir = w_buildDirectory w) in
  guarded (CompDBRunner.handleCompileCommandsSourceCreated uri) /\
  guarded (CompDBRunner.handleCompileCommandsSourceChanged uri).
Proof.
  cbv zeta.
  assert (Hboth : forall pushed : bool,
    exists rest,
      handler_events_of
        (if pushed then CompDBRunner.handleCompileCommandsSourceCreated uri
         else CompDBRunner.handleCompileCommandsSourceChanged uri) self w =
        EvBuildDirectory :: rest /\
      ~ In EvBuildDirectory rest /\
      (forall e, In e rest ->
         JString (Uri_fsPath (dirnameUri (obj uri))) = w_buildDirectory w) /\
      (forall dir, In (EvCompdb dir) rest -> JString dir = w_buildDirectory w)).
  { intros pushed. rewrite handler_events.
    destruct (strict_neq_string (Uri_fsPath (dirnameUri (obj uri))) (w_buildDirectory w))
      eqn:Hdirs.
    - exists []. cbn. intuition.
    - apply strict_neq_string_false in Hdirs. eexists. split; [reflexivity|].
      destruct (priv_updateCompDB_events self (obj uri) (log_event EvBuildDirectory w))
        as [E | [E | [E | [(_ & content & E) | (_ & content & E)]]]];
        rewrite E; repeat split; try (intros; exact Hdirs); unfold not; cbn; intros;
        repeat match goal with
               | Hin : _ \/ _ |- _ => destruct Hin
               | Hin : False |- _ => destruct Hin
               end;
        try discriminate;
        match goal with
        | Hin : EvCompdb _ = EvCompdb _ |- _ => injection Hin as <-; exact Hdirs
        end. }
  split; [exact (Hboth true) | exact (Hboth false)].
Qed.

(** X10.  A create event for a path in the active build directory, with
    normalization succeeding and no artifact published: the candidate is
    recorded, the build directory asked for, the tool run, the artifact
    written with the encoded text, and the restart signal issued once. *)
Theorem matching_create_event_publishes self w uri response j :
  JString (Uri_fsPath (dirnameUri (obj uri))) = w_buildDirectory w ->
  normalizes w (obj uri) response j ->
  artifact_absent (w_fs w) (CompDBRunner.targetUri self) ->
  let target := CompDBRunner.targetUri self in
  let content := TextEncoder_encode (String.concat newline response) in
  CompDBRunner.handleCompileCommandsSourceCreated uri (self, w) =
    (Returned tt,
     (CompDBRunner.mk (CompDBRunner.workspaceFolder self)
        (CompDBRunner.compileCommandsSourceCandidates self ++ [uri]),
      mkWorld (fs_writeFile (w_fs w) target content) (w_buildDirectory w) (w_compdb w)
        (w_log w ++
         [EvBuildDirectory; EvCompdb (localBuildDir (obj uri)); EvReadFile target;
          EvStat target; EvWriteFile target content; EvRestart]))).
Proof.
  intros Hdirs Hnorm [Hread Hstat]. cbv zeta.
  assert (Hneq : published_equal (w_fs (log_event EvBuildDirectory w))
                   (CompDBRunner.targetUri self) j = false)
    by (unfold published_equal; cbn; rewrite Hread; reflexivity).
  pose proof (priv_updateCompDB_publishes self (obj uri) (log_event EvBuildDirectory w)
                response j Hnorm Hneq) as Hrun.
  unfold published in Hrun. cbn [w_fs w_buildDirectory w_compdb w_log log_event] in Hrun.
  rewrite Hstat in Hrun.
  unfold CompDBRunner.handleCompileCommandsSourceCreated, bind, CompDBRunner.this,
    CompDBRunner.set_candidates, CompDBRunner.in_world,
    executeCommand_cmake_buildDirectory.
  cbn. rewrite <- Hdirs. cbn. rewrite String.eqb_refl. cbn.
  change (CompDBRunner.priv_updateCompDB
            (CompDBRunner.mk (CompDBRunner.workspaceFolder self)
               (CompDBRunner.compileCommandsSourceCandidates self ++ [uri])))
    with (CompDBRunner.priv_updateCompDB self).
  rewrite Hdirs. change (mkWorld (w_fs w) (w_buildDirectory w) (w_compdb w)
                           (w_log w ++ [EvBuildDirectory]))
    with (log_event EvBuildDirectory w).
  rewrite Hrun. rewrite <- !app_assoc. reflexivity.
Qed.

(** X11.  The delete handler keeps, in their order, exactly the candidates
    that are another object than the URI of the event (the candidates
    afterwards are the list before, filtered), leaves the world and the
    workspace folder as they are, and handling the same event a second time
    changes nothing more. *)
Theorem delete_is_idempotent self w uri :
  let st := snd (CompDBRunner.handleCompileCommandsSourceDeleted uri (self, w)) in
  CompDBRunner.handleCompileCommandsSourceDeleted uri st = (Returned tt, st) /\
  snd st = w /\
  CompDBRunner.workspaceFolder (fst st) = CompDBRunner.workspaceFolder self /\
  CompDBRunner.compileCommandsSourceCandidates (fst st) =
    List.filter (fun c => negb (Nat.eqb (loc c) (loc uri)))
      (CompDBRunner.compileCommandsSourceCandidates self) /\
  (forall c,
     In c (CompDBRunner.compileCommandsSourceCandidates (fst st)) <->
     In c (CompDBRunner.compileCommandsSourceCandidates self) /\ loc c <> loc uri).
Proof.
  cbv zeta. rewrite handleCompileCommandsSourceDeleted_filters. cbn [snd fst].
  rewrite handleCompileCommandsSourceDeleted_filters.
  cbn [CompDBRunner.workspaceFolder CompDBRunner.compileCommandsSourceCandidates].
  rewrite filter_twice. do 4 (split; [reflexivity|]).
  intros c. rewrite filter_In, negb_true_iff, Nat.eqb_neq. reflexivity.
Qed.

(** X12.  A create event followed by a delete event that carries the same
    [Uri] object gives the runner back as it was, if that object was no
    candidate before; whatever the create handler did to the world. *)
Theorem create_then_delete_restores_candidates self w uri :
  (forall c, In c (CompDBRunner.compileCommandsSourceCandidates self) ->
             loc c <> loc uri) ->
  fst (snd (CompDBRunner.handleCompileCommandsSourceDeleted uri
              (snd (CompDBRunner.handleCompileCommandsSourceCreated uri (self, w))))) =
    self.
Proof.
  intros Hfresh.
  pose proof (handleCompileCommandsSourceCreated_runner self w uri) as Hcreated.
  destruct (CompDBRunner.handleCompileCommandsSourceCreated uri (self, w))
    as [r [self1 w1]].
  cbn [snd fst] in Hcreated |- *. subst self1.
  rewrite handleCompileCommandsSourceDeleted_filters. cbn.
  rewrite List.filter_app. cbn. rewrite Nat.eqb_refl. cbn. rewrite app_nil_r.
  rewrite filter_keeps_all.
  - destruct self. reflexivity.
  - intros c Hc. apply negb_true_iff, Nat.eqb_neq. apply Hfresh. exact Hc.
Qed.

(** X13.  The candidates are never consulted: two runners of the same
    workspace folder with different candidates settle the same way and leave
    the same world behind, for [runCompDB] and for every watcher event. *)
Theorem candidates_never_matter (folder : Ref WorkspaceFolder)
    (c1 c2 : list (Ref Uri)) (buildDir : jsval) w uri :
  let r1 := CompDBRunner.mk folder c1 in
  let r2 := CompDBRunner.mk folder c2 in
  let same := fun handler : M (CompDBRunner.t * World FS) unit =>
    fst (handler (r1, w)) = fst (handler (r2, w)) /\
    snd (snd (handler (r1, w))) = snd (snd (handler (r2, w))) in
  CompDBRunner.runCompDB r1 buildDir w = CompDBRunner.runCompDB r2 buildDir w /\
  same (CompDBRunner.handleCompileCommandsSourceCreated uri) /\
  same (CompDBRunner.handleCompileCommandsSourceChanged uri) /\
  same (CompDBRunner.handleCompileCommandsSourceDeleted uri).
Proof.
  cbv zeta. split; [reflexivity|].
  split; [|split; [|split; reflexivity]].
  - unfold CompDBRunner.handleCompileCommandsSourceCreated, bind, CompDBRunner.this,
      CompDBRunner.set_candidates, CompDBRunner.in_world,
      executeCommand_cmake_buildDirectory.
    cbn.
    destruct (strict_neq_string (Uri_fsPath (dirnameUri (obj uri))) (w_buildDirectory w));
      [split; reflexivity|].
    cbn.
    change (CompDBRunner.priv_updateCompDB (CompDBRunner.mk folder (c1 ++ [uri])))
      with (CompDBRunner.priv_updateCompDB (CompDBRunner.mk folder [])).
    change (CompDBRunner.priv_updateCompDB (CompDBRunner.mk folder (c2 ++ [uri])))
      with (CompDBRunner.priv_updateCompDB (CompDBRunner.mk folder [])).
    destruct (CompDBRunner.priv_updateCompDB _ _ _) as [r w']. split; reflexivity.
  - unfold CompDBRunner.handleCompileCommandsSourceChanged, bind, CompDBRunner.this,
      CompDBRunner.in_world, executeCommand_cmake_buildDirectory.
    cbn.
    destruct (strict_neq_string (Uri_fsPath (dirnameUri (obj uri))) (w_buildDirectory w));
      [split; reflexivity|].
    cbn.
    change (CompDBRunner.priv_updateCompDB (CompDBRunner.mk folder c1))
      with (CompDBRunner.priv_updateCompDB (CompDBRunner.mk folder [])).
    change (CompDBRunner.priv_updateCompDB (CompDBRunner.mk folder c2))
      with (CompDBRunner.priv_updateCompDB (CompDBRunner.mk folder [])).
    destruct (CompDBRunner.priv_updateCompDB _ _ _) as [r w']. split; reflexivity.
Qed.
End WatcherProperties.

(** ** The runners of the workspace *)

Lemma filter_filter_andb {A : Type} (f g : A -> bool) (l : list A) :
  List.filter f (List.filter g l) = List.filter (fun x => g x && f x) l.
Proof.
  induction l as [|x l IH]; [reflexivity|]. cbn.
  destruct (g x); cbn; [destruct (f x); rewrite IH; reflexivity | exact IH].
Qed.

Lemma fold_left_filter {A B : Type} (p : B -> A -> bool) (bs : list B) :
  forall l : list A,
    fold_left (fun acc b => List.filter (p b) acc) bs l =
    List.filter (fun x => forallb (fun b => p b x) bs) l.
Proof.
  induction bs as [|b bs IH]; intros l; cbn [fold_left forallb].
  - symmetry. apply filter_keeps_all. reflexivity.
  - rewrite IH. apply filter_filter_andb.
Qed.

Lemma fold_left_snoc {A B : Type} (g : B -> A) (bs : list B) :
  forall l : list A,
    fold_left (fun acc b => acc ++ [g b]) bs l = l ++ List.map g bs.
Proof.
  induction bs as [|b bs IH]; intros l; cbn [fold_left List.map].
  - rewrite app_nil_r. reflexivity.
  - rewrite IH, <- app_assoc. reflexivity.
Qed.

Lemma NoDup_map_filter {A B : Type} (f : A -> B) (p : A -> bool) (l : list A) :
  List.NoDup (List.map f l) -> List.NoDup (List.map f (List.filter p l)).
Proof.
  induction l as [|a l IH]; cbn; intros Hnd; [constructor|].
  apply NoDup_cons_iff in Hnd as [Hnotin Hnd].
  destruct (p a); cbn; [|exact (IH Hnd)].
  apply NoDup_cons_iff. split; [|exact (IH Hnd)].
  intros Hin. apply Hnotin. apply in_map_iff in Hin as (x & Hx & Hin).
  apply filter_In in Hin as [Hin _]. apply in_map_iff. exists x. split; assumption.
Qed.

Section Workspace.
Context `{Host} {FS : Type} `{FileSystem FS}.
Implicit Types (self : WorkspaceManager.t) (w : World FS).

(** X14.  When the workspace folders change, the runners afterwards are: the
    old runners whose folder is none of the removed folder objects, in their
    order and with their candidates, followed by a new runner without
    candidates for every added folder, in the order of the event. *)
Theorem workspace_change_keeps_other_runners self
    (removed added : list (Ref WorkspaceFolder)) :
  WorkspaceManager.compDBRunners
    (WorkspaceManager.handleDidChangeWorkspaceFolders removed added self) =
  List.filter
    (fun worker =>
       forallb (fun gone => negb (Nat.eqb (loc (CompDBRunner.workspaceFolder worker))
                                    (loc gone)))
         removed)
    (WorkspaceManager.compDBRunners self) ++
  List.map (fun folder => CompDBRunner.mk folder []) added.
Proof.
  unfold WorkspaceManager.handleDidChangeWorkspaceFolders.
  cbn [WorkspaceManager.compDBRunners].
  rewrite (fold_left_snoc CompDBRunner.new).
  rewrite (fold_left_filter
             (fun gone worker =>
                strict_neq_ref (CompDBRunner.workspaceFolder worker) gone)).
  reflexivity.
Qed.

(** X15.  One runner per folder: the constructor makes one runner for each
    open folder, so distinct folders get distinct runners; and a change of
    the workspace folders keeps the folders of the runners distinct, when
    the added folders are distinct and none of them has a runner already. *)
Theorem one_runner_per_folder self
    (folders removed added : list (Ref WorkspaceFolder)) :
  let folder_of := fun worker => loc (CompDBRunner.workspaceFolder worker) in
  (List.map CompDBRunner.workspaceFolder
     (WorkspaceManager.compDBRunners (WorkspaceManager.new folders)) = folders) /\
  (List.NoDup (List.map folder_of (WorkspaceManager.compDBRunners self)) ->
   List.NoDup (List.map loc added) ->
   (forall folder worker,
      In folder added -> In worker (WorkspaceManager.compDBRunners self) ->
      folder_of worker <> loc folder) ->
   List.NoDup (List.map folder_of
            (WorkspaceManager.compDBRunners
               (WorkspaceManager.handleDidChangeWorkspaceFolders removed added self)))).
Proof.
  cbv zeta. split.
  - unfold WorkspaceManager.new. cbn [WorkspaceManager.compDBRunners].
    rewrite List.map_map. cbn. apply List.map_id.
  - intros Hold Hadded Hfresh.
    unfold WorkspaceManager.handleDidChangeWorkspaceFolders.
    cbn [WorkspaceManager.compDBRunners].
    rewrite (fold_left_snoc CompDBRunner.new).
    rewrite (fold_left_filter
               (fun gone worker =>
                  strict_neq_ref (CompDBRunner.workspaceFolder worker) gone)).
    rewrite List.map_app, List.map_map. cbn [CompDBRunner.new CompDBRunner.workspaceFolder].
    apply List.NoDup_app.
    + apply NoDup_map_filter. exact Hold.
    + exact Hadded.
    + intros x Hleft Hright.
      apply in_map_iff in Hleft as (worker & <- & Hworker).
      apply in_map_iff in Hright as (folder & Hloc & Hfolder).
      apply filter_In in Hworker as [Hworker _].
      exact (Hfresh folder worker Hfolder Hworker (eq_sym Hloc)).
Qed.

(** X16.  Whatever the runners, the folder and the build directory:
    [WorkspaceManager.runCompDB] rejects with a [TypeError] and leaves the
    world as it was: no runner has run the tool, read, written or restarted.
    The handler of the reconfiguration signal, which only calls it, does the
    same. *)
Theorem reconfiguration_never_reconciles self
    (workspaceFolder : Ref WorkspaceFolder) (buildDirectory : jsval)
    (activeProject : CMakeManager.Project) w :
  WorkspaceManager.runCompDB self workspaceFolder buildDirectory w =
    (Threw TypeError, w) /\
  CMakeManager.handleReconfigured self activeProject w = (Threw TypeError, w).
Proof.
  split.
  - unfold WorkspaceManager.runCompDB, bind.
    rewrite forEach_runCompDB_without_argument. reflexivity.
  - unfold CMakeManager.handleReconfigured, WorkspaceManager.runCompDB, bind.
    rewrite forEach_runCompDB_without_argument. reflexivity.
Qed.
End Workspace.

(** ** [dirnameUri] and [runCompDB] *)

(** A path that no separator occurs in after its first character has no
    parent but the root or the current directory. *)
Lemma dirname_scan_plain (name : list ascii) (matchedSlash : bool) :
  (forall c, In c name -> is_slash c = false) ->
  dirname_scan matchedSlash name = None.
Proof.
  revert matchedSlash. induction name as [|c name IH]; intros b Hname; [reflexivity|].
  cbn. rewrite (Hname c (or_introl eq_refl)). apply IH.
  intros c' Hc'. apply Hname. right. exact Hc'.
Qed.

(** X17.  [dirnameUri] of the URI of [<dir>/<name>] is the same URI with the
    path [<dir>]: scheme, authority, query and fragment are kept.  Here
    [<dir>] is not empty and does not end in a separator, and [<name>] is
    not empty and contains none. *)
Theorem dirnameUri_of_file (uri : Uri) (dir name : string) :
  uri_path uri = dir +:+ "/" +:+ name ->
  dir <> "" ->
  last (list_ascii_of_string dir) <> Some slash ->
  name <> "" ->
  (forall c, In c (list_ascii_of_string name) -> is_slash c = false) ->
  dirnameUri uri =
    mkUri (uri_scheme uri) (uri_authority uri) dir (uri_query uri) (uri_fragment uri).
Proof.
  intros Hpath Hdir Hlast Hname Hplain. unfold dirnameUri, Uri_with_path.
  rewrite Hpath, (posix_dirname_of_file dir name Hdir Hlast Hname Hplain).
  reflexivity.
Qed.

(** X18.  [dirnameUri] never yields an empty path, and the parent of an
    absolute path is absolute; in particular the parent of a file directly
    under the root is the root. *)
Theorem dirnameUri_stays_rooted (uri : Uri) :
  uri_path (dirnameUri uri) <> "" /\
  (forall rest, uri_path uri = String slash rest ->
     exists rest', uri_path (dirnameUri uri) = String slash rest') /\
  (forall name, uri_path uri = String slash name ->
     (forall c, In c (list_ascii_of_string name) -> is_slash c = false) ->
     uri_path (dirnameUri uri) = "/").
Proof.
  unfold dirnameUri, Uri_with_path. cbn [uri_path]. unfold posix_dirname.
  split; [|split].
  - destruct (list_ascii_of_string (uri_path uri)) as [|c0 tail]; [discriminate|].
    destruct (dirname_scan true (rev tail)) as [before|].
    + destruct (is_slash c0 && Nat.eqb (List.length before) 0); discriminate.
    + destruct (is_slash c0); discriminate.
  - intros rest ->. cbn [list_ascii_of_string].
    change (is_slash slash) with true. cbn [andb].
    destruct (dirname_scan true (rev (list_ascii_of_string rest))) as [before|].
    + destruct (Nat.eqb (List.length before) 0); eexists; reflexivity.
    + eexists; reflexivity.
  - intros name -> Hplain. cbn [list_ascii_of_string].
    rewrite dirname_scan_plain; [reflexivity|].
    intros c Hc. apply Hplain. apply in_rev. exact Hc.
Qed.

Section BuildDirectory.
Context `{Host} {FS : Type} `{FileSystem FS}.
Implicit Types (self : CompDBRunner.t) (w : World FS).

(** X19.  [runCompDB(buildDir)] runs the tool on [buildDir] itself, as the
    first thing it does: joining the file name to the directory and taking
    the parent again gives the directory back.  This holds where joining
    only puts a separator in between (the directory is normalized and does
    not end in one), [Uri.file] keeps the path, and [fsPath] is the path (a
    local file off Windows). *)
Theorem runCompDB_runs_tool_on_buildDir self (buildDir : string) w :
  let joined := posixPath_join buildDir "compile_commands.json" in
  buildDir <> "" ->
  last (list_ascii_of_string buildDir) <> Some slash ->
  joined = buildDir +:+ "/" +:+ "compile_commands.json" ->
  uri_path (Uri_file joined) = joined ->
  Uri_fsPath (dirnameUri (Uri_file joined)) = uri_path (dirnameUri (Uri_file joined)) ->
  localBuildDir (Uri_file joined) = buildDir /\
  exists rest,
    events_of (CompDBRunner.runCompDB self (JString buildDir)) w =
      EvCompdb buildDir :: rest.
Proof.
  cbv zeta. intros Hdir Hlast Hjoin Hfile HfsPath.
  assert (Hlocal : localBuildDir (Uri_file (posixPath_join buildDir "compile_commands.json"))
                   = buildDir).
  { unfold localBuildDir. rewrite HfsPath. unfold dirnameUri, Uri_with_path.
    cbn [uri_path]. rewrite Hfile, Hjoin.
    apply posix_dirname_of_file; [exact Hdir | exact Hlast | discriminate|].
    intros c Hc. cbn in Hc.
    repeat (destruct Hc as [<- | Hc]; [reflexivity|]). destruct Hc. }
  split; [exact Hlocal|].
  change (CompDBRunner.runCompDB self (JString buildDir))
    with (CompDBRunner.priv_updateCompDB self
            (Uri_file (posixPath_join buildDir "compile_commands.json"))).
  destruct (priv_updateCompDB_cases self
              (Uri_file (posixPath_join buildDir "compile_commands.json")) w)
    as [[Hscheme _] | [(_ & _ & Hrun) | [(r & j & _ & _ & Hrun)
       | (r & j & _ & _ & Hrun)]]].
  - exfalso. apply Hscheme. apply Uri_file_scheme.
  - eexists. apply events_of_extends. rewrite Hrun, Hlocal. reflexivity.
  - eexists. apply events_of_extends. rewrite Hrun, Hlocal. reflexivity.
  - eexists. apply events_of_extends. rewrite Hrun. unfold published.
    cbn [snd w_log]. rewrite Hlocal. reflexivity.
Qed.
End BuildDirectory.

(** ** More scenarios on the concrete host *)

Section MoreScenarios.
Import Sample.

Let target : Uri := file_uri artifact.
Let virtual : Uri := mkUri "vscode-vfs" "github" "/proj/build/compile_commands.json" "" "".
Let third : Ref WorkspaceFolder :=
  mkRef 3 (mkWorkspaceFolder (file_uri "/third") "third" 2).

Lemma remote_source_rejects_untouched_witness :
  uri_scheme virtual <> "file" /\
  CompDBRunner.priv_updateCompDB runner virtual (world ∅) = (Threw SyntaxError, world ∅).
Proof.
  split; [discriminate|].
  apply (@remote_source_rejects_untouched host disk fs runner virtual (world ∅)).
  discriminate.
Defined.

Lemma equal_artifact_is_left_alone_witness :
  fs_readFile (w_fs (world {[artifact := file "[]"]})) (CompDBRunner.targetUri runner) =
    Some (list_byte_of_string "[]") /\
  count is_write
    (events_of (CompDBRunner.priv_updateCompDB runner source)
       (world {[artifact := file "[]"]})) = 0.
Proof.
  split; [reflexivity|].
  apply (@equal_artifact_is_left_alone host disk fs runner source
           (world {[artifact := file "[]"]}) ["["; "]"] VEmptyArray
           (list_byte_of_string "[]") VEmptyArray);
    [repeat split | reflexivity | reflexivity | reflexivity].
Defined.

Lemma repeated_reconciliation_writes_once_witness :
  normalizes (world ∅) source ["["; "]"] VEmptyArray /\
  count is_write (skipn 0 (w_log (reconcile_times 4 runner source (world ∅)))) <= 1.
Proof.
  split; [repeat split|].
  apply (@repeated_reconciliation_writes_once host disk fs runner source (world ∅)
           ["["; "]"] VEmptyArray 3);
    [repeat split | reflexivity | reflexivity].
Defined.

Lemma matching_create_event_publishes_witness :
  JString (Uri_fsPath (dirnameUri source)) = w_buildDirectory (world ∅) /\
  fst (CompDBRunner.handleCompileCommandsSourceCreated (mkRef 10 source) (runner, world ∅)) =
    Returned tt.
Proof.
  split; [reflexivity|].
  rewrite (@matching_create_event_publishes host disk fs runner (world ∅)
             (mkRef 10 source) ["["; "]"] VEmptyArray);
    [reflexivity | reflexivity | repeat split | split; reflexivity].
Defined.

Lemma create_then_delete_restores_candidates_witness :
  let before := CompDBRunner.mk proj [mkRef 7 source] in
  fst (snd (CompDBRunner.handleCompileCommandsSourceDeleted (mkRef 10 source)
              (snd (CompDBRunner.handleCompileCommandsSourceCreated (mkRef 10 source)
                      (before, world ∅))))) = before.
Proof.
  apply (@create_then_delete_restores_candidates host disk fs
           (CompDBRunner.mk proj [mkRef 7 source]) (world ∅) (mkRef 10 source)).
  intros c [<- | []]. discriminate.
Defined.

Lemma one_runner_per_folder_witness :
  List.NoDup
    (List.map (fun worker => loc (CompDBRunner.workspaceFolder worker))
       (WorkspaceManager.compDBRunners
          (WorkspaceManager.handleDidChangeWorkspaceFolders [other] [third]
             (WorkspaceManager.new [proj; other])))).
Proof.
  apply (proj2 (one_runner_per_folder (WorkspaceManager.new [proj; other])
                  [proj; other] [other] [third])).
  - repeat constructor; cbn; intuition discriminate.
  - repeat constructor; cbn; intuition discriminate.
  - intros folder worker [<- | []] [<- | [<- | []]]; discriminate.
Defined.

Lemma dirnameUri_of_file_witness :
  dirnameUri source = file_uri "/proj/build".
Proof.
  apply (dirnameUri_of_file source "/proj/build" "compile_commands.json");
    [reflexivity | discriminate | discriminate | discriminate |].
  intros c Hc. cbn in Hc.
  repeat (destruct Hc as [<- | Hc]; [reflexivity|]). destruct Hc.
Defined.

Lemma runCompDB_runs_tool_on_buildDir_witness :
  localBuildDir (Uri_file (posixPath_join "/proj/build" "compile_commands.json")) =
    "/proj/build".
Proof.
  apply (@runCompDB_runs_tool_on_buildDir host disk fs runner "/proj/build" (world ∅));
    [discriminate | discriminate | reflexivity | reflexivity | reflexivity].
Defined.
End MoreScenarios.
